(** * stdnn_platform: the experiment orchestration core and the invest Store

    A shallow embedding of [stdnn/experiments/experiment.py] and of
    [invest/store.py].  Python objects that are mutated and shared (the
    configuration dictionaries) live in an object table and are named by
    their index; everything a method can raise is an explicit result. *)

From Stdlib Require Import ZArith Lia.
From stdpp Require Import base list strings pretty.

(** ** Exceptions and the state-and-exception monad *)

(** A raised exception: the name of its class and its message. *)
Record exn := Exn { exn_class : string; exn_msg : string }.

Definition ValueError : string -> exn := Exn "ValueError".
Definition TypeError : string -> exn := Exn "TypeError".
Definition AttributeError : string -> exn := Exn "AttributeError".

(** A computation over a mutable state [S]: the state survives a raise, as
    the effects of a Python statement survive the exception that ends it. *)
Definition M (S A : Type) : Type := S -> (exn + A) * S.

Definition ret {S A : Type} (a : A) : M S A := fun s => (inr a, s).

Definition raise {S A : Type} (e : exn) : M S A := fun s => (inl e, s).

Definition bind {S A B : Type} (m : M S A) (k : A -> M S B) : M S B :=
  fun s =>
    match m s with
    | (inl e, s') => (inl e, s')
    | (inr a, s') => k a s'
    end.

(** A read of the state that may raise. *)
Definition reading {S A : Type} (f : S -> exn + A) : M S A :=
  fun s => (f s, s).

Notation "'do' x <- m ; k" := (bind m (fun x => k))
  (at level 10, x name, m at level 100, k at level 200,
   format "'[v' 'do'  x  <-  m ;  '/' k ']'").

Notation "'do' ' p <- m ; k" := (bind m (fun x => let 'p := x in k))
  (at level 10, p pattern, m at level 100, k at level 200,
   format "'[v' 'do'  ' p  <-  m ;  '/' k ']'").

(** A [for] loop that threads an accumulator and stops at the first raise. *)
Fixpoint for_each {S A B : Type} (body : A -> B -> M S B) (xs : list A) (acc : B)
  : M S B :=
  match xs with
  | [] => ret acc
  | x :: xs' => do acc' <- body x acc; for_each body xs' acc'
  end.

Section Stdnn.

(** Python's [float] with the two runtime operations the code applies to it:
    [round(x, ndigits)] and the text an f-string gives it. *)
Context {float : Type}.
Variable round_float : float -> Z -> float.
Variable str_float : float -> string.

(** ** Values *)

Definition loc := nat.

(** The immutable values a hyperparameter or a configuration leaf can take. *)
Inductive scalar :=
| SNone
| SBool (b : bool)
| SInt (z : Z)
| SFloat (f : float)
| SStr (s : string).

(** A value: a scalar, a class object (the only callables here), or a
    reference to a dict of the object table. *)
Inductive val :=
| VScalar (s : scalar)
| VClass (name : string)
| VRef (l : loc).

Definition VNone : val := VScalar SNone.

(** A dict keeps its keys in insertion order. *)
Definition dict := list (string * val).

(** The object table: the dict at index [l] is the object [VRef l] names. *)
Definition heap := list dict.

Fixpoint dict_lookup (d : dict) (k : string) : option val :=
  match d with
  | [] => None
  | (k', v) :: d' => if String.eqb k' k then Some v else dict_lookup d' k
  end.

(** [d.get(k)]: [None] for an absent key. *)
Definition dict_get (d : dict) (k : string) : val :=
  default VNone (dict_lookup d k).

(** [d[k] = v]: an existing key keeps its place, a new one goes last. *)
Fixpoint dict_setitem (d : dict) (k : string) (v : val) : dict :=
  match d with
  | [] => [(k, v)]
  | (k', v') :: d' =>
      if String.eqb k' k then (k', v) :: d' else (k', v') :: dict_setitem d' k v
  end.

Definition deref (h : heap) (l : loc) : dict := default [] (h !! l).

Definition alloc (d : dict) : M heap loc :=
  fun h => (inr (length h), h ++ [d]).

(** In-place replacement of the contents of the dict at [l]. *)
Definition store (l : loc) (d : dict) (h : heap) : heap := <[l := d]> h.

(** [v.get(k)]: only dicts have the method. *)
Definition get_method (v : val) (k : string) (h : heap) : exn + val :=
  match v with
  | VRef l => inr (dict_get (deref h l) k)
  | VScalar SNone => inl (AttributeError "'NoneType' object has no attribute 'get'")
  | _ => inl (AttributeError "object has no attribute 'get'")
  end.

(** [dict(v)]: a new dict with the items of [v], the values shared. *)
Definition py_dict (v : val) : M heap loc :=
  match v with
  | VRef l => fun h => alloc (deref h l) h
  | VScalar (SStr EmptyString) => alloc []
  | VScalar (SStr _) =>
      raise (ValueError "dictionary update sequence element #0 has length 1; 2 is required")
  | _ => raise (TypeError "object is not iterable")
  end.

(** ** ExperimentConfig *)

Record ExperimentConfig := { _config : loc; _label : string }.

(** [ExperimentConfig.__init__] *)
Definition ExperimentConfig_init (config : val) (label : string)
  : M heap ExperimentConfig :=
  do c <- py_dict config;
  ret {| _config := c; _label := label |}.

(** [self._config.get("model").get("meta").get(field)] *)
Definition model_meta (self : ExperimentConfig) (field : string) (h : heap)
  : exn + val :=
  match get_method (VRef (_config self)) "model" h with
  | inl e => inl e
  | inr model =>
      match get_method model "meta" h with
      | inl e => inl e
      | inr meta => get_method meta field h
      end
  end.

Definition model_type (self : ExperimentConfig) : heap -> exn + val :=
  model_meta self "type".

Definition model_manager (self : ExperimentConfig) : heap -> exn + val :=
  model_meta self "manager".

Definition get_label (self : ExperimentConfig) : string := _label self.

(** [self._config.get(stage).get("params")] *)
Definition stage_params (self : ExperimentConfig) (stage : string) (h : heap)
  : exn + val :=
  match get_method (VRef (_config self)) stage h with
  | inl e => inl e
  | inr s => get_method s "params" h
  end.

Definition get_model_params (self : ExperimentConfig) : M heap loc :=
  do p <- reading (stage_params self "model"); py_dict p.

Definition get_preprocessing_params (self : ExperimentConfig) : M heap loc :=
  do p <- reading (stage_params self "preprocess"); py_dict p.

Definition get_training_params (self : ExperimentConfig) : M heap loc :=
  do p <- reading (stage_params self "train"); py_dict p.

Definition get_validation_params (self : ExperimentConfig) : M heap loc :=
  do p <- reading (stage_params self "validate"); py_dict p.

(** No [dict(...)] here: the stored value itself is returned. *)
Definition get_testing_params (self : ExperimentConfig) : M heap val :=
  reading (stage_params self "test").

(** ** ConfigSpace, as the code uses it *)

(** One grid cell: the items of [cell.get_dictionary()], in the order the
    dictionary yields them. *)
Definition Configuration := list (string * scalar).

(** A hyperparameter as the code reads it: its [meta] attribute, which is
    [None] when the hyperparameter was declared without meta and else the
    dict given, here with the keys and the template keys it holds. *)
Record Hyperparameter := { meta : option (list (string * string)) }.

(** [get_hyperparameter(name)], for the names of the cells of the grid:
    [generate_grid] puts no other name into a cell, so the lookup itself
    finds a hyperparameter. *)
Record ConfigurationSpace := { get_hyperparameter : string -> Hyperparameter }.

(** [m.get(k)] on a meta value: [None] has no such method. *)
Definition meta_get (m : option (list (string * string))) (k : string)
  : exn + option string :=
  match m with
  | None => inl (AttributeError "'NoneType' object has no attribute 'get'")
  | Some entries => inr (snd <$> find (fun kv => String.eqb (fst kv) k) entries)
  end.

(** [self._config_space.get_hyperparameter(param).meta.get("config")] *)
Definition meta_config (space : ConfigurationSpace) (param : string)
  : exn + option string :=
  meta_get (meta (get_hyperparameter space param)) "config".

Variable generate_grid : ConfigurationSpace -> list (string * Z) -> list Configuration.

(** ** ExperimentConfigManager *)

(** The experiment part of the raw configuration: its ["config_space"],
    ["grid"] and ["runs"] entries. *)
Record RawExpConfig := {
  config_space : ConfigurationSpace;
  grid_dims : list (string * Z);
  exp_runs : val }.

Record ExperimentConfigManager := {
  _raw_pipeline_config : loc;
  raw_exp_config : RawExpConfig;
  _config_space : ConfigurationSpace;
  grid : list Configuration }.

(** [ExperimentConfigManager.__init__] *)
Definition ExperimentConfigManager_init (raw_pipeline_config : val)
    (raw_exp : RawExpConfig) : M heap ExperimentConfigManager :=
  do c <- py_dict raw_pipeline_config;
  ret {| _raw_pipeline_config := c;
         raw_exp_config := raw_exp;
         _config_space := config_space raw_exp;
         grid := generate_grid (config_space raw_exp) (grid_dims raw_exp) |}.

Definition get_runs (self : ExperimentConfigManager) : val :=
  exp_runs (raw_exp_config self).

(** [isinstance(value, (int, float))]; [bool] is a subclass of [int]. *)
Definition isinstance_int_float (value : scalar) : bool :=
  match value with
  | SBool _ | SInt _ | SFloat _ => true
  | SNone | SStr _ => false
  end.

(** [round(value, ndigits)] for [ndigits >= 0], on the values that pass
    [isinstance_int_float]: an int (or bool) gives the int itself. *)
Definition py_round (value : scalar) (ndigits : Z) : scalar :=
  match value with
  | SBool b => SInt (Z.b2z b)
  | SInt z => SInt z
  | SFloat f => SFloat (round_float f ndigits)
  | SNone | SStr _ => value
  end.

(** The text of [value] inside an f-string. *)
Definition format_scalar (value : scalar) : string :=
  match value with
  | SNone => "None"
  | SBool true => "True"
  | SBool false => "False"
  | SInt z => pretty z
  | SFloat f => str_float f
  | SStr s => s
  end.

(** [f"{param}={round(value, 6) if isinstance(value, (int, float)) else value}"] *)
Definition label_item (param : string) (value : scalar) : string :=
  param +:+ "=" +:+
  format_scalar (if isinstance_int_float value then py_round value 6 else value).

Definition UnboundHyperparameter : string -> exn := Exn "UnboundHyperparameter".

(** Modelled from the spec: [stdnn.experiments.utils.dictionary_update_deep]
    is imported by experiment.py but is not among the sources.  The
    specification has it locate the [params] subtree of the stage it is given
    and write [value] at [key] inside that subtree, in place (the caller
    drops its result), creating no intermediate structure: a stage without a
    [params] subtree is an [UnboundHyperparameter] failure. *)
Definition dictionary_update_deep (dictionary : val) (key : string) (value : val)
  : M heap unit :=
  fun h =>
    match dictionary with
    | VRef stage =>
        match dict_get (deref h stage) "params" with
        | VRef params =>
            (inr tt, store params (dict_setitem (deref h params) key value) h)
        | _ => (inl (UnboundHyperparameter key), h)
        end
    | _ => (inl (UnboundHyperparameter key), h)
    end.

(** The body of the inner loop of [configurations]: one hyperparameter of
    the cell. *)
Definition update_param (self : ExperimentConfigManager) (current_config : loc)
    (item : string * scalar) (label : list string) : M heap (list string) :=
  let '(param, value) := item in
  do key <- reading (fun _ => meta_config (_config_space self) param);
  match key with
  | None =>
      raise (ValueError "No meta config value specified for ConfigSpace hyperparameter")
  | Some key =>
      do stage <- reading (fun h => inr (dict_get (deref h current_config) key));
      match stage with
      | VScalar SNone =>
          raise (ValueError
            ("No dictionary associated with provided meta config value '" +:+ key +:+ "'"))
      | _ =>
          do _ <- dictionary_update_deep stage param (VScalar value);
          ret (label ++ [label_item param value])
      end
  end.

(** The body of the outer loop of [configurations]: what the generator does
    between two [yield]s, for one cell of the grid. *)
Definition next_config (self : ExperimentConfigManager) (cell : Configuration)
  : M heap ExperimentConfig :=
  do current_config <- py_dict (VRef (_raw_pipeline_config self));
  do label <- for_each (update_param self current_config) cell [];
  ExperimentConfig_init (VRef current_config) (String.concat "," label).

(** The generator run to exhaustion, as [list(self.configurations())]. *)
Definition configurations (self : ExperimentConfigManager)
  : M heap (list ExperimentConfig) :=
  for_each (fun cell acc => do c <- next_config self cell; ret (acc ++ [c]))
           (grid self) [].

(** ** Vocabulary of the statements *)

(** Every reference held in a dict of the object table names an allocated
    dict, as Python guarantees of the objects a program can reach. *)
Definition refs_below (n : nat) (d : dict) : bool :=
  forallb (fun kv => match snd kv with VRef r => r <? n | _ => true end) d.

Definition closed (h : heap) : bool := forallb (refs_below (length h)) h.

(** The binding of [param] resolves inside the template: the hyperparameter
    has a meta dict that declares one, and the template has a stage under
    that key. *)
Definition resolves (self : ExperimentConfigManager) (h : heap) (param : string)
  : bool :=
  match meta_config (_config_space self) param with
  | inr (Some key) =>
      match dict_get (deref h (_raw_pipeline_config self)) key with
      | VScalar SNone => false
      | _ => true
      end
  | _ => false
  end.

(** The class of what building a configuration raises at a hyperparameter
    whose binding does not resolve: a hyperparameter declared without meta
    fails in [.meta.get], before the two guards of the code; the guards
    raise a [ValueError]. *)
Definition unresolved_class (self : ExperimentConfigManager) (param : string)
  : string :=
  match meta (get_hyperparameter (_config_space self) param) with
  | None => "AttributeError"
  | Some _ => "ValueError"
  end.

(** The label in the words of the specification: the [name=value] pairs of
    the assignment, in its order, joined by commas; a numeric value is
    rounded to six decimals, any other value is written as it is.  Rounding
    leaves an int as it is, and a bool is numeric here as it is for the
    code's [isinstance] test: it is written as the int 1 or 0. *)
Definition spec_value_text (value : scalar) : string :=
  match value with
  | SFloat f => str_float (round_float f 6)
  | SInt z => pretty z
  | SBool b => pretty (Z.b2z b)
  | SStr s => s
  | SNone => "None"
  end.

Definition spec_label (assignment : Configuration) : string :=
  String.concat ","
    (map (fun nv => fst nv +:+ "=" +:+ spec_value_text (snd nv)) assignment).

(** The items [dict(v)] copies. *)
Definition items_of (v : val) (h : heap) : option dict :=
  match v with
  | VRef l => Some (deref h l)
  | VScalar (SStr EmptyString) => Some []
  | _ => None
  end.

(** The params a configuration holds for a stage. *)
Definition stored_params (self : ExperimentConfig) (stage : string) (h : heap)
  : option dict :=
  match stage_params self stage h with
  | inr v => items_of v h
  | inl _ => None
  end.

(** What a getter does that hands out a shallow copy of the params dict
    [p] the configuration holds for [stage]: it returns, the dict it
    returns is a new object (the next of the object table) with the stored
    items, and no replacement of its contents reaches a dict that was there
    before, so the configuration holds the same params after it. *)
Definition copies_params_at (getter : ExperimentConfig -> M heap loc) (stage : string)
    (self : ExperimentConfig) (h : heap) (p : loc) : Prop :=
  getter self h = (inr (length h), h ++ [deref h p]) /\
  stored_params self stage h = Some (deref h p) /\
  forall d' : dict,
    (forall l, l < length h ->
               deref (store (length h) d' (h ++ [deref h p])) l = deref h l) /\
    stored_params self stage (store (length h) d' (h ++ [deref h p]))
    = stored_params self stage h.

(** A getter that does so for every configuration that holds a params
    dict for [stage]. *)
Definition shallow_copy_getter (getter : ExperimentConfig -> M heap loc)
    (stage : string) : Prop :=
  forall (self : ExperimentConfig) (h : heap) (s p : loc),
    closed h = true ->
    dict_get (deref h (_config self)) stage = VRef s ->
    dict_get (deref h s) "params" = VRef p ->
    copies_params_at getter stage self h p.

(** What a getter does that hands out the stored params dict [p] itself:
    it returns a reference to [p] and allocates nothing, and there is a
    write through that reference after which the configuration holds other
    params. *)
Definition aliases_params_at (getter : ExperimentConfig -> M heap val) (stage : string)
    (self : ExperimentConfig) (h : heap) (p : loc) : Prop :=
  getter self h = (inr (VRef p), h) /\
  exists key value,
    stored_params self stage (store p (dict_setitem (deref h p) key value) h)
    <> stored_params self stage h.

(** ** The pipeline and the observable calls *)

(** The pipeline is an external collaborator: model and manager classes
    named by the configuration, with a state [W] of their own.  It may read
    the dicts of the configuration it is handed and does not write to them. *)
Context {W Model Manager RunResult Aggregate : Type}.

Record Pipeline := {
  construct_model : string -> dict -> heap -> W -> (exn + Model) * W;
  construct_manager : string -> W -> (exn + Manager) * W;
  set_model : Manager -> Model -> W -> (exn + unit) * W;
  run_pipeline : Manager -> ExperimentConfig -> heap -> W -> (exn + RunResult) * W }.

Variable pipeline : Pipeline.

(** Every call that leaves the orchestration code, with what it returned. *)
Inductive event :=
| EvTqdm (total : val)
| EvModel (cls : string) (kwargs : dict) (res : exn + Model)
| EvManager (cls : string) (res : exn + Manager)
| EvSetModel (manager : Manager) (model : Model) (res : exn + unit)
| EvRunPipeline (manager : Manager) (config : ExperimentConfig) (res : exn + RunResult)
| EvUpdate
| EvClose
| EvPrint (label : string).

(** Modelled from the spec: [stdnn.experiments.results] is not among the
    sources.  A RunResultSet is an ordered collection of RunResults;
    [add_result] appends to it in place, [copy] gives a set the caller
    cannot use to change the original, and [combine] (a parameter of the
    development: it computes floating-point statistics) yields one
    aggregated record. *)
Definition RunResultSet := list RunResult.

Variable combine : RunResultSet -> exn + Aggregate.

Record state := {
  st_heap : heap;
  st_results : list RunResultSet;
  st_world : W;
  st_trace : list event }.

Definition on_heap {A : Type} (m : M heap A) : M state A :=
  fun st =>
    let '(r, h) := m (st_heap st) in
    (r, {| st_heap := h; st_results := st_results st;
           st_world := st_world st; st_trace := st_trace st |}).

Definition log (ev : event) : M state unit :=
  fun st =>
    (inr tt, {| st_heap := st_heap st; st_results := st_results st;
                st_world := st_world st; st_trace := st_trace st ++ [ev] |}).

(** A call into the pipeline, recorded with its outcome. *)
Definition external {A : Type} (f : heap -> W -> (exn + A) * W)
    (ev : exn + A -> event) : M state A :=
  fun st =>
    let '(r, w) := f (st_heap st) (st_world st) in
    (r, {| st_heap := st_heap st; st_results := st_results st;
           st_world := w; st_trace := st_trace st ++ [ev r] |}).

(** [RunResultSet()] *)
Definition RunResultSet_init : M state loc :=
  fun st =>
    (inr (length (st_results st)),
     {| st_heap := st_heap st; st_results := st_results st ++ [[]];
        st_world := st_world st; st_trace := st_trace st |}).

Definition results_of (st : state) (l : loc) : RunResultSet :=
  default [] (st_results st !! l).

(** [self.add_result(result)] *)
Definition RunResultSet_add_result (self : loc) (result : RunResult) : M state unit :=
  fun st =>
    (inr tt,
     {| st_heap := st_heap st;
        st_results := <[self := results_of st self ++ [result]]> (st_results st);
        st_world := st_world st; st_trace := st_trace st |}).

(** [self.copy()] *)
Definition RunResultSet_copy (self : loc) : M state loc :=
  fun st =>
    (inr (length (st_results st)),
     {| st_heap := st_heap st;
        st_results := st_results st ++ [results_of st self];
        st_world := st_world st; st_trace := st_trace st |}).

(** [self.combine()] *)
Definition RunResultSet_combine (self : loc) : M state Aggregate :=
  reading (fun st => combine (results_of st self)).

(** Modelled from the spec: the ExperimentResultSet of
    [stdnn.experiments.results] maps a configuration label to its
    aggregate, in insertion order; no key is ever overwritten, and a label
    that is already present is a [DuplicateLabel] failure. *)
Definition ExperimentResultSet := list (string * Aggregate).

Definition DuplicateLabel : string -> exn := Exn "DuplicateLabel".

Definition has_key (self : ExperimentResultSet) (key : string) : bool :=
  existsb (fun kv => String.eqb (fst kv) key) self.

Definition ExperimentResultSet_add_result (self : ExperimentResultSet)
    (result : Aggregate) (key : string) : exn + ExperimentResultSet :=
  if has_key self key then inl (DuplicateLabel key)
  else inr (self ++ [(key, result)]).

(** ** Experiment *)

(** [exp_config] is the field [_config] of the source, whose name
    ExperimentConfig has taken here; [_results] names a RunResultSet. *)
Record Experiment := { exp_config : ExperimentConfig; _results : loc }.

(** [Experiment.__init__] *)
Definition Experiment_init (config : ExperimentConfig) : M state Experiment :=
  do r <- RunResultSet_init;
  ret {| exp_config := config; _results := r |}.

(** [type(v).__name__] *)
Definition type_name (v : val) : string :=
  match v with
  | VScalar SNone => "NoneType"
  | VScalar (SBool _) => "bool"
  | VScalar (SInt _) => "int"
  | VScalar (SFloat _) => "float"
  | VScalar (SStr _) => "str"
  | VClass _ => "type"
  | VRef _ => "dict"
  end.

(** [range(repeat)]: the number of iterations. *)
Definition py_range (repeat : val) : exn + nat :=
  match repeat with
  | VScalar (SInt z) => inr (Z.to_nat z)
  | VScalar (SBool b) => inr (Z.to_nat (Z.b2z b))
  | _ => inl (TypeError ("'" +:+ type_name repeat
                         +:+ "' object cannot be interpreted as an integer"))
  end.

(** The call of [self._config.model_type] on the unpacked dict of
    [self._config.get_model_params()], as keyword arguments. *)
Definition call_model_type (ty : val) (params : loc) : M state Model :=
  match ty with
  | VClass cls =>
      fun st =>
        let kwargs := deref (st_heap st) params in
        external (construct_model pipeline cls kwargs) (EvModel cls kwargs) st
  | _ => raise (TypeError "object is not callable")
  end.

(** [self._config.model_manager()] *)
Definition call_model_manager (ty : val) : M state Manager :=
  match ty with
  | VClass cls => external (fun _ => construct_manager pipeline cls) (EvManager cls)
  | _ => raise (TypeError "object is not callable")
  end.

(** One pass through the pipeline: the first four statements of the loop
    body of [run]. *)
Definition run_once (config : ExperimentConfig) : M state RunResult :=
  do ty <- on_heap (reading (model_type config));
  do params <- on_heap (get_model_params config);
  do model <- call_model_type ty params;
  do mty <- on_heap (reading (model_manager config));
  do model_manager <- call_model_manager mty;
  do _ <- external (fun _ => set_model pipeline model_manager model)
                   (EvSetModel model_manager model);
  external (run_pipeline pipeline model_manager config)
           (EvRunPipeline model_manager config).

(** The [for run in range(repeat)] loop. *)
Fixpoint run_loop (n : nat) (self : Experiment) : M state unit :=
  match n with
  | O => ret tt
  | S n' =>
      do result <- run_once (exp_config self);
      do _ <- RunResultSet_add_result (_results self) result;
      do _ <- log EvUpdate;
      run_loop n' self
  end.

(** [Experiment.run].  The progress bar is an external collaborator as
    well: [tqdm(total=repeat)] is recorded and taken to return, as it does
    for [None] and for a number.  What tqdm does with a total of another
    type is left out: there it may raise before [range] is reached, and the
    statements that name what a failing [range] raises are made for [None]
    and numbers only. *)
Definition run (self : Experiment) (repeat : val) : M state unit :=
  do _ <- log (EvTqdm repeat);
  do n <- reading (fun _ => py_range repeat);
  do _ <- run_loop n self;
  log EvClose.

(** [Experiment.get_run_results] *)
Definition get_run_results (self : Experiment) : M state loc :=
  RunResultSet_copy (_results self).

(** ** ExperimentManager *)

(** [mgr_config] is the field [_config] of the source. *)
Record ExperimentManager := { mgr_config : ExperimentConfigManager }.

(** The body of the loop of [run_experiments] up to the aggregate: the
    generator's step for [cell], the experiment, its runs and their
    combination. *)
Definition cell_aggregate (self : ExperimentManager) (cell : Configuration)
  : M state (Aggregate * string) :=
  do config <- on_heap (next_config (mgr_config self) cell);
  do experiment <- Experiment_init config;
  do _ <- log (EvPrint (get_label config));
  do _ <- run experiment (get_runs (mgr_config self));
  do rs <- get_run_results experiment;
  do aggregate <- RunResultSet_combine rs;
  ret (aggregate, get_label config).

(** The whole body: the aggregate goes into the result set under the label
    of the configuration. *)
Definition run_cell (self : ExperimentManager) (cell : Configuration)
    (results : ExperimentResultSet) : M state ExperimentResultSet :=
  do x <- cell_aggregate self cell;
  reading (fun _ => ExperimentResultSet_add_result results (fst x) (snd x)).

(** [ExperimentManager.run_experiments] *)
Definition run_experiments (self : ExperimentManager) : M state ExperimentResultSet :=
  for_each (run_cell self) (grid (mgr_config self)) [].


(** The calls into the pipeline among the events. *)
Definition is_pipeline_call (ev : event) : bool :=
  match ev with
  | EvModel _ _ _ | EvManager _ _ | EvSetModel _ _ _ | EvRunPipeline _ _ _ => true
  | _ => false
  end.

End Stdnn.

(** * invest.store *)

Module Invest.

Section Store.

(** The Python values handed to the constructor (data frames, lists of
    company names, numbers): the code stores them and never inspects them. *)
Context {object : Type}.

(** A value: one of those, or an instance with its attributes. *)
#[warnings="-register-all"]
Inductive value :=
| Obj (o : object)
| Inst (attrs : list (string * value)).

(** A function defined with [def]: only positional parameters, none with a
    default, as both methods of [Store] are written. *)
Record pyfunction := {
  fn_name : string;
  fn_params : list string;
  fn_body : list (string * value) -> exn + value }.

Definition plural (n : nat) : string := if Nat.eqb n 1 then EmptyString else "s".

(** A call binds the arguments to the parameters before the body runs; a
    count that does not match is a [TypeError]. *)
Definition call (f : pyfunction) (args : list value) : exn + value :=
  if Nat.eqb (length args) (length (fn_params f))
  then fn_body f (zip (fn_params f) args)
  else if Nat.ltb (length (fn_params f)) (length args)
  then inl (TypeError (fn_name f +:+ "() takes " +:+ pretty (length (fn_params f))
                       +:+ " positional argument" +:+ plural (length (fn_params f))
                       +:+ " but " +:+ pretty (length args)
                       +:+ (if Nat.eqb (length args) 1 then " was" else " were")
                       +:+ " given"))
  else inl (TypeError (fn_name f +:+ "() missing "
                       +:+ pretty (length (fn_params f) - length args)
                       +:+ " required positional argument"
                       +:+ plural (length (fn_params f) - length args))).

(** [obj.method(args)]: the instance goes first. *)
Definition call_method (f : pyfunction) (self : value) (args : list value)
  : exn + value :=
  call f (self :: args).

Fixpoint lookup_name (env : list (string * value)) (x : string) : option value :=
  match env with
  | [] => None
  | (y, v) :: env' => if String.eqb y x then Some v else lookup_name env' x
  end.

(** [self.attr = env[attr]] *)
Definition setattr_from (env : list (string * value)) (attr : string) (self : value)
  : value :=
  match self, lookup_name env attr with
  | Inst attrs, Some v => Inst (attrs ++ [(attr, v)])
  | _, _ => self
  end.

(** The statements of [Store.process]; they work on the data frame. *)
Variable process_body : list (string * value) -> exn + value.

(** [def process(self)] *)
Definition process : pyfunction :=
  {| fn_name := "process"; fn_params := ["self"]; fn_body := process_body |}.

(** [def __init__(self, main_data, all_companies, consumer_companies,
    general_companies, margin_of_safety, beta, years)]: seven attribute
    assignments, then [self.process(self)]. *)
Definition Store_init : pyfunction :=
  {| fn_name := "__init__";
     fn_params := ["self"; "main_data"; "all_companies"; "consumer_companies";
                   "general_companies"; "margin_of_safety"; "beta"; "years"];
     fn_body := fun env =>
       match lookup_name env "self" with
       | None => inl (Exn "NameError" "name 'self' is not defined")
       | Some self0 =>
           let self :=
             foldl (fun s attr => setattr_from env attr s) self0
                   ["main_data"; "all_companies"; "consumer_companies";
                    "general_companies"; "margin_of_safety"; "beta"; "years"] in
           match call_method process self [self] with
           | inl e => inl e
           | inr _ => inr self
           end
       end |}.

(** [Store(args)]: a new instance, initialised by [__init__]. *)
Definition Store (args : list value) : exn + value :=
  call_method Store_init (Inst []) args.

End Store.

End Invest.

(** * Sample inputs *)

Module Sample.

(** Floats given by their decimal text, for samples whose floats already
    have at most six decimals. *)
Definition sfloat := string.
Definition sround (f : sfloat) (_ : Z) : sfloat := f.
Definition sstr (f : sfloat) : string := f.

Definition int (z : Z) : @val sfloat := VScalar (SInt z).

(** The template [{"model": {"meta": {"type": GWN, "manager": Manager},
    "params": {"channels": 16}}}]: the dicts at 0 (top level), 1 (the model
    stage), 2 (meta) and 3 (params). *)
Definition template : @heap sfloat :=
  [ [("model", VRef 1)];
    [("meta", VRef 2); ("params", VRef 3)];
    [("type", VClass "GWN"); ("manager", VClass "Manager")];
    [("channels", int 16)] ].

(** The hyperparameters [channels] and [layers] are bound to the stage
    [model], [dropout] to a stage the template does not have; the meta of
    [seed] declares no binding, and any other hyperparameter was declared
    without meta. *)
Definition space : ConfigurationSpace :=
  {| get_hyperparameter := fun param =>
       if String.eqb param "channels" || String.eqb param "layers"
       then {| meta := Some [("config", "model")] |}
       else if String.eqb param "dropout" then {| meta := Some [("config", "modle")] |}
       else if String.eqb param "seed" then {| meta := Some [] |}
       else {| meta := None |} |}.

Definition cell16 : @Configuration sfloat := [("channels", SInt 16)].
Definition cell32 : @Configuration sfloat := [("channels", SInt 32)].

Definition manager_with (cells : list (@Configuration sfloat)) (runs : @val sfloat)
  : @ExperimentConfigManager sfloat :=
  {| _raw_pipeline_config := 0;
     raw_exp_config := {| config_space := space; grid_dims := [("channels", 2%Z)];
                          exp_runs := runs |};
     _config_space := space;
     grid := cells |}.

(** A pipeline whose world counts the calls of [run_pipeline]; the call
    number [fail_at] (from 0) raises, every other one returns its number. *)
Definition pipeline_failing (fail_at : option nat)
  : @Pipeline sfloat nat unit unit nat :=
  {| construct_model := fun _ _ _ w => (inr tt, w);
     construct_manager := fun _ w => (inr tt, w);
     set_model := fun _ _ w => (inr tt, w);
     run_pipeline := fun _ _ _ w =>
       (if bool_decide (fail_at = Some w)
        then inl (Exn "RuntimeError" "training diverged")
        else inr w, S w) |}.

Definition count_results (rs : @RunResultSet nat) : exn + nat := inr (length rs).

Definition start (h : @heap sfloat) : @state sfloat nat unit unit nat :=
  {| st_heap := h; st_results := []; st_world := 0; st_trace := [] |}.

(** A cell of two hyperparameters. *)
Definition cell_channels_layers : @Configuration sfloat :=
  [("channels", SInt 16); ("layers", SInt 2)].

(** A cell whose second hyperparameter is bound to the absent stage. *)
Definition cell_dropout : @Configuration sfloat :=
  [("channels", SInt 16); ("dropout", SFloat "0.5")].

(** A cell whose second hyperparameter was declared without meta. *)
Definition cell_momentum : @Configuration sfloat :=
  [("channels", SInt 16); ("momentum", SFloat "0.9")].

(** The configuration built for [cell16] from the template, the object
    table it leaves, and an experiment on it that has not run yet. *)
Definition config16 : ExperimentConfig := {| _config := 5; _label := "channels=16" |}.

Definition heap16 : @heap sfloat :=
  template ++ [ [("model", VRef 1)]; [("model", VRef 1)] ].

Definition experiment16 : Experiment := {| exp_config := config16; _results := 0 |}.

Definition ready : @state sfloat nat unit unit nat :=
  {| st_heap := heap16; st_results := [[]]; st_world := 0; st_trace := [] |}.

End Sample.

(** * The rest of experiment.py *)

Section Reporting.

Context {float : Type}.
Variable round_float : float -> Z -> float.
Variable str_float : float -> string.
Context {W Model Manager RunResult Aggregate : Type}.
Variable pipeline : @Pipeline float W Model Manager RunResult.
Variable combine : @RunResultSet RunResult -> exn + Aggregate.

(** [self._config_space.get_hyperparameters()], by name and in the order
    ConfigSpace yields them. *)
Variable get_hyperparameters : ConfigurationSpace -> list string.

(** [str(v)] for the values that are not scalars (a class, a dict). *)
Variable str_object : @heap float -> @val float -> string.

Definition py_str (h : @heap float) (v : @val float) : string :=
  match v with
  | VScalar s => format_scalar str_float s
  | _ => str_object h v
  end.

(** [self.raw_exp_config.get('grid').get(name)] *)
Fixpoint grid_get (dims : list (string * Z)) (name : string) : option Z :=
  match dims with
  | [] => None
  | (n, steps) :: dims' => if String.eqb n name then Some steps else grid_get dims' name
  end.

Definition newline : string := String (Ascii.ascii_of_nat 10) EmptyString.
Definition tab : string := String (Ascii.ascii_of_nat 9) EmptyString.

(** The text [print] writes for the six arguments of [print_info], with
    [sep] a newline and the newline that ends it. *)
Definition info_text (hyperparam_str : list string) (total_configs : Z) (runs : string)
  : string :=
  String.concat newline
    [ newline +:+ "Experiment Configuration";
      String.concat EmptyString (replicate 75 "-");
      "Configured Hyperparameters:" +:+ tab +:+ String.concat ", " hyperparam_str;
      "Total Configurations      :" +:+ tab +:+ pretty total_configs;
      "Runs per Configuration    :" +:+ tab +:+ runs;
      String.concat EmptyString (replicate 75 "-") ]
  +:+ newline.

(** The body of the loop of [print_info]: the f-string is appended, then
    [total_configs] is multiplied by the steps; a hyperparameter the grid
    does not list has [None] steps, which an int cannot be multiplied by. *)
Definition print_info_step (self : @ExperimentConfigManager float) (name : string)
    (acc : list string * Z)
  : M (@state float W Model Manager RunResult) (list string * Z) :=
  let steps := grid_get (grid_dims (raw_exp_config self)) name in
  let text := name +:+ " (steps="
              +:+ match steps with Some n => pretty n | None => "None" end +:+ ")" in
  match steps with
  | Some n => ret (fst acc ++ [text], (snd acc * n)%Z)
  | None => raise (TypeError "unsupported operand type(s) for *=: 'int' and 'NoneType'")
  end.

(** [ExperimentConfigManager.print_info] *)
Definition print_info (self : @ExperimentConfigManager float)
  : M (@state float W Model Manager RunResult) unit :=
  do acc <- for_each (print_info_step self)
                     (get_hyperparameters (_config_space self)) ([], 1%Z);
  fun st =>
    log (EvPrint (info_text (fst acc) (snd acc) (py_str (st_heap st) (get_runs self)))) st.

(** [ExperimentManager.__init__] *)
Definition ExperimentManager_init (config : @ExperimentConfigManager float)
  : M (@state float W Model Manager RunResult) ExperimentManager :=
  do _ <- print_info config;
  ret {| mgr_config := config |}.

(** The events of the repeat loop: the calls into the pipeline and the
    updates of the progress bar. *)
Definition is_loop_event (ev : @event float Model Manager RunResult) : bool :=
  match ev with
  | EvUpdate => true
  | _ => is_pipeline_call ev
  end.

(** From [st] to [st'] the events recorded are [evs], and the object table
    has only grown, by at most [k] dicts. *)
Definition extends (evs : list (@event float Model Manager RunResult)) (k : nat)
    (st st' : @state float W Model Manager RunResult) : Prop :=
  st_trace st' = st_trace st ++ evs
  /\ exists copies, st_heap st' = st_heap st ++ copies /\ length copies <= k.

(** A computation that, whatever its outcome, records only events that
    [allowed] admits and only grows the object table, by at most [k]
    dicts. *)
Definition emits {A : Type} (allowed : @event float Model Manager RunResult -> bool)
    (k : nat) (m : M (@state float W Model Manager RunResult) A) : Prop :=
  forall st x st',
    m st = (x, st') ->
    exists evs, extends evs k st st' /\ forallb allowed evs = true.

(** What a getter of params does when the entries it reads are missing:
    without the stage, [None.get] is an [AttributeError]; with the stage
    but without its [params], [dict(None)] is a [TypeError]; neither
    changes the object table. *)
Definition raises_on_missing_entries (getter : ExperimentConfig -> M (@heap float) loc)
    (stage : string) : Prop :=
  forall (self : ExperimentConfig) (h : @heap float),
    (dict_get (deref h (_config self)) stage = VNone ->
     exists msg, getter self h = (inl (AttributeError msg), h))
    /\ (forall s, dict_get (deref h (_config self)) stage = VRef s ->
                  dict_get (deref h s) "params" = VNone ->
                  exists msg, getter self h = (inl (TypeError msg), h)).

End Reporting.

(** * The rest of invest: the body of [Store.process] and [main] *)

Module InvestMain.

(** An iteration: the items [next] yields (the first of them, for one
    without end), and the exception that ends it when that is not
    [StopIteration]. *)
Record iteration (A : Type) := { yielded : list A; ended_by : option exn }.

Arguments yielded {A} _.
Arguments ended_by {A} _.

Section Main.

Context {object : Type}.

(** The values of the local variables of [process]: the ints and lists
    its statements make, and the values handed in. *)
#[warnings="-register-all"]
Inductive local_value :=
| LInt (z : Z)
| LList (items : list local_value)
| LVal (v : @Invest.value object).

(** Iterating over one of the opaque values: what [iter] raises for it, or
    the iteration it starts. *)
Variable iterate : object -> exn + iteration object.

(** [iter(v)]: an int is not iterable, nor is an instance of [Store]. *)
Definition py_iter (v : local_value) : exn + iteration local_value :=
  match v with
  | LInt _ => inl (TypeError "'int' object is not iterable")
  | LList items => inr {| yielded := items; ended_by := None |}
  | LVal (Invest.Obj o) =>
      match iterate o with
      | inl e => inl e
      | inr it =>
          inr {| yielded := map (fun x => LVal (Invest.Obj x)) (yielded it);
                 ended_by := ended_by it |}
      end
  | LVal (Invest.Inst _) => inl (TypeError "'Store' object is not iterable")
  end.

(** The local variables of a call: the names bound so far, the latest
    binding first. *)
Definition locals := list (string * local_value).

Definition store_local (env : locals) (x : string) (v : local_value) : locals :=
  (x, v) :: env.

Fixpoint lookup_local (env : locals) (x : string) : option local_value :=
  match env with
  | [] => None
  | (y, v) :: env' => if String.eqb y x then Some v else lookup_local env' x
  end.

(** Reading a local variable: one that no statement has bound yet is an
    [UnboundLocalError] (with the message of Python 3.10 and earlier). *)
Definition load_local (env : locals) (x : string) : exn + local_value :=
  match lookup_local env x with
  | Some v => inr v
  | None =>
      inl (Exn "UnboundLocalError"
               ("local variable '" +:+ x +:+ "' referenced before assignment"))
  end.

(** [for target in ...: body], over the items of an iteration: each item is
    bound to [target] before the body runs, and the first raise ends the
    loop. *)
Fixpoint for_items (target : string) (body : locals -> exn + locals)
    (items : list local_value) (ended : option exn) (env : locals) : exn + locals :=
  match items with
  | [] => match ended with
          | Some e => inl e
          | None => inr env
          end
  | item :: items' =>
      match body (store_local env target item) with
      | inl e => inl e
      | inr env' => for_items target body items' ended env'
      end
  end.

(** [v.attr]; the opaque values are taken to have no attributes. *)
Definition getattr (v : local_value) (attr : string) : exn + @Invest.value object :=
  match v with
  | LVal (Invest.Inst attrs) =>
      match Invest.lookup_name attrs attr with
      | Some a => inr a
      | None => inl (AttributeError ("'Store' object has no attribute '" +:+ attr +:+ "'"))
      end
  | _ => inl (AttributeError ("object has no attribute '" +:+ attr +:+ "'"))
  end.

(** The statements of the loop over the years (lines 35 to 40), which work
    on the data frame. *)
Variable year_statements : locals -> exn + locals.

(** The body of the loop over the companies (lines 30 to 40). *)
Definition company_statements (env : locals) : exn + locals :=
  let env := store_local env "indexes" (LList []) in
  let env := store_local env "year" (LInt 2012) in
  let env := store_local env "years" (LInt 2017) in
  match load_local env "years" with
  | inl e => inl e
  | inr years =>
      match py_iter years with
      | inl e => inl e
      | inr it => for_items "year" year_statements (yielded it) (ended_by it) env
      end
  end.

(** Python's [None], among the opaque values. *)
Variable none : object.

(** The statements of [process]: the loop over [self.all_companies], then
    [print(indexes)]; the call returns [None]. *)
Definition process_statements (args : list (string * @Invest.value object))
  : exn + @Invest.value object :=
  let env := map (fun xv => (fst xv, LVal (snd xv))) args in
  match load_local env "self" with
  | inl e => inl e
  | inr self =>
      match getattr self "all_companies" with
      | inl e => inl e
      | inr companies =>
          match py_iter (LVal companies) with
          | inl e => inl e
          | inr it =>
              match for_items "company" company_statements (yielded it) (ended_by it) env with
              | inl e => inl e
              | inr env' =>
                  match load_local env' "indexes" with
                  | inl e => inl e
                  | inr _ => inr (Invest.Obj none)
                  end
              end
          end
      end
  end.

(** What [main] of app.py works with: the data frame [load_dummy_data]
    returns (or what it raises), the company lists, the two numbers of the
    command line (the module sets [args] before it calls [main]), the
    years and the flag, all opaque; the statements of the year loop after
    the construction of the store, and the statements after the loop. *)
Variable load_dummy_data : exn + object.
Variables all_companies_dummy consumer_dummy general_dummy : object.
Variables margin_of_safety beta extension : object.
Variable of_int : Z -> object.
Variable portfolio_of_year : @Invest.value object -> Z -> exn + unit.
Variable process_metrics : exn + unit.

(** The loop [for year in range(2015, 2018)]. *)
Fixpoint main_years (df : object) (years : list Z) : exn + unit :=
  match years with
  | [] => inr tt
  | year :: years' =>
      match Invest.Store process_statements
              (map Invest.Obj [df; all_companies_dummy; consumer_dummy; general_dummy;
                               margin_of_safety; beta; of_int year; extension]) with
      | inl e => inl e
      | inr store =>
          match portfolio_of_year store year with
          | inl e => inl e
          | inr _ => main_years df years'
          end
      end
  end.

(** [main] *)
Definition main : exn + unit :=
  match load_dummy_data with
  | inl e => inl e
  | inr df =>
      match main_years df [2015; 2016; 2017]%Z with
      | inl e => inl e
      | inr _ => process_metrics
      end
  end.

End Main.

End InvestMain.

(** * stdnn-main.py: [str2bool] *)

Module StdnnMain.

(** A command-line value as argparse hands it to [str2bool]. *)
Inductive cli_value :=
| CBool (b : bool)
| CStr (s : string).

(** A string is the bytes of its UTF-8 text.  [lower] maps the ASCII
    letters and leaves the other bytes as they are: the ten words
    [str2bool] knows are made of ASCII letters and digits that no character
    outside ASCII lowers to, so a string with such a character matches none
    of them, under [str.lower] as under [lower].  [upper] is [str.upper] on
    ASCII strings only: outside ASCII, [str.upper] can give ASCII letters
    (the long s becomes S), so statements about [upper] are made for ASCII
    strings. *)
Definition lower_ascii (c : Ascii.ascii) : Ascii.ascii :=
  let n := Ascii.nat_of_ascii c in
  if (65 <=? n) && (n <=? 90) then Ascii.ascii_of_nat (n + 32) else c.

Definition upper_ascii (c : Ascii.ascii) : Ascii.ascii :=
  let n := Ascii.nat_of_ascii c in
  if (97 <=? n) && (n <=? 122) then Ascii.ascii_of_nat (n - 32) else c.

Fixpoint lower (s : string) : string :=
  match s with
  | EmptyString => EmptyString
  | String c s' => String (lower_ascii c) (lower s')
  end.

Fixpoint upper (s : string) : string :=
  match s with
  | EmptyString => EmptyString
  | String c s' => String (upper_ascii c) (upper s')
  end.

(** The strings of ASCII characters. *)
Definition is_ascii (s : string) : bool :=
  forallb (fun c => Ascii.nat_of_ascii c <? 128) (String.list_ascii_of_string s).

(** [x in (a, b, ...)] for strings *)
Definition str_in (x : string) (xs : list string) : bool :=
  existsb (String.eqb x) xs.

Definition ArgumentTypeError : string -> exn := Exn "ArgumentTypeError".

Definition str2bool (v : cli_value) : exn + bool :=
  match v with
  | CBool b => inr b
  | CStr s =>
      if str_in (lower s) ["yes"; "true"; "t"; "y"; "1"] then inr true
      else if str_in (lower s) ["no"; "false"; "f"; "n"; "0"] then inr false
      else inl (ArgumentTypeError "Boolean value expected.")
  end.

(** [str(b)] *)
Definition str_of_bool (b : bool) : string := if b then "True" else "False".

End StdnnMain.

(** * stdnn/reporting/plotter.py: [Plotter.plot_lines] *)

Module Plotting.

(** The calls [plot_lines] makes into matplotlib and the file system, which
    are taken to succeed; [SetupPlot] stands for the five calls of
    [_setup_plot]. *)
Inductive plot_event :=
| Makedirs (dir : string)
| StyleContext
| SetupPlot (title : option string)
| Plot (x y label : string)
| Errorbar (x y yerr label : string)
| Legend
| Savefig (path : string)
| Clf.

Definition emit (ev : plot_event) : M (list plot_event) unit :=
  fun t => (inr tt, t ++ [ev]).

Definition dot : Ascii.ascii := Ascii.ascii_of_nat 46.

(** [config.replace('.', 'pt')] *)
Fixpoint replace_dots (s : string) : string :=
  match s with
  | EmptyString => EmptyString
  | String c s' =>
      if Ascii.eqb c dot then "pt" +:+ replace_dots s'
      else String c (replace_dots s')
  end.

(** The text of an optional string inside an f-string. *)
Definition str_opt (o : option string) : string :=
  match o with
  | Some s => s
  | None => "None"
  end.

Section PlotLines.

(** [os.path.exists] and [os.path.join] on two strings. *)
Variable path_exists : string -> bool.
Variable path_join : string -> string -> string.

(** [os.path.join(save_dir, name)]: [None] is not a path. *)
Definition join_save_dir (save_dir : option string) (name : string) : exn + string :=
  match save_dir with
  | Some dir => inr (path_join dir name)
  | None => inl (TypeError "expected str, bytes or os.PathLike object, not NoneType")
  end.

(** The parameters of [plot_lines] the control flow depends on; a data
    frame dictionary is kept as the names of its frames. *)
Variables figure_name x : string.
Variable y : list string.
Variable std_error : option (list string).
Variable save_figure_format : string.
Variable title : option string.
Variable perconfig : bool.
Variable save_dir : option string.

Definition line_label (config frame_name : string) : string :=
  if perconfig then frame_name else frame_name +:+ " - " +:+ config.

(** [plt.legend], [plt.savefig] and [plt.clf] *)
Definition save_figure (name : string) : M (list plot_event) unit :=
  do _ <- emit Legend;
  do path <- reading (fun _ => join_save_dir save_dir name);
  do _ <- emit (Savefig path);
  emit Clf.

(** The body of the loop over the configurations. *)
Definition plot_config (item : string * list string) (_ : unit)
  : M (list plot_event) unit :=
  let '(config, frames) := item in
  do _ <- (if perconfig
           then emit (SetupPlot (Some (str_opt title +:+ " (" +:+ config +:+ ")")))
           else ret tt);
  do _ <- match std_error with
          | None =>
              for_each (fun y_value _ =>
                          for_each (fun frame_name _ =>
                                      emit (Plot x y_value (line_label config frame_name)))
                                   frames tt)
                       y tt
          | Some errors =>
              if Nat.eqb (length y) (length errors)
              then for_each (fun ye _ =>
                               for_each (fun frame_name _ =>
                                           emit (Errorbar x (fst ye) (snd ye)
                                                          (line_label config frame_name)))
                                        frames tt)
                            (zip y errors) tt
              else raise (ValueError "Expected y and std_error to be the same length")
          end;
  if perconfig
  then save_figure (replace_dots config +:+ "-" +:+ figure_name +:+ "."
                    +:+ save_figure_format)
  else ret tt.

(** [Plotter.plot_lines] *)
Definition plot_lines (dataframes_dict : list (string * list string))
  : M (list plot_event) unit :=
  do _ <- match save_dir with
          | Some dir => if path_exists dir then ret tt else emit (Makedirs dir)
          | None => ret tt
          end;
  do _ <- emit StyleContext;
  do _ <- emit (SetupPlot title);
  do _ <- for_each plot_config dataframes_dict tt;
  if perconfig then ret tt
  else save_figure (figure_name +:+ "." +:+ save_figure_format).

(** The lines drawn for one configuration when no error columns are given. *)
Definition lines_of (config : string) (frames : list string) : list plot_event :=
  flat_map (fun y_value =>
              map (fun frame_name => Plot x y_value (line_label config frame_name)) frames)
           y.

End PlotLines.

(** The paths of the figures saved. *)
Definition saved_paths (events : list plot_event) : list string :=
  flat_map (fun ev => match ev with Savefig path => [path] | _ => [] end) events.

End Plotting.

(** * More sample inputs *)

Module MoreSamples.

Import Sample.

(** Floats in units of one ten-millionth, which rounding to six decimals
    brings to the nearest multiple of ten. *)
Definition tfloat := Z.
Definition tround (f : tfloat) (_ : Z) : tfloat := ((f + 5) / 10 * 10)%Z.
Definition tstr (f : tfloat) : string := pretty f.

Definition ttemplate : @heap tfloat :=
  [ [("model", VRef 1)];
    [("meta", VRef 2); ("params", VRef 3)];
    [("type", VClass "GWN"); ("manager", VClass "Manager")];
    [("lr", VScalar (SFloat 1000000%Z))] ].

(** Every hyperparameter is bound to the stage [model]. *)
Definition tspace : ConfigurationSpace :=
  {| get_hyperparameter := fun _ => {| meta := Some [("config", "model")] |} |}.

Definition tmanager : @ExperimentConfigManager tfloat :=
  {| _raw_pipeline_config := 0;
     raw_exp_config := {| config_space := tspace;
                          grid_dims := [("lr", 2%Z)];
                          exp_runs := VScalar (SInt 1) |};
     _config_space := tspace;
     grid := [] |}.

(** A configuration with the five stages, each with a params dict: the
    dicts at 0 (top level), 1 to 5 (the stages) and 6 to 10 (their params). *)
Definition full_template : @heap sfloat :=
  [ [("model", VRef 1); ("preprocess", VRef 2); ("train", VRef 3);
     ("validate", VRef 4); ("test", VRef 5)];
    [("params", VRef 6)]; [("params", VRef 7)]; [("params", VRef 8)];
    [("params", VRef 9)]; [("params", VRef 10)];
    [("channels", int 16)]; [("window", int 12)]; [("epochs", int 50)];
    [("batch", int 32)]; [("horizon", int 3)] ].

Definition full_config : ExperimentConfig := {| _config := 0; _label := "full" |}.

(** The manager of a grid of learning rates, each cell run once. *)
Definition cell_lr (f : Z) : @Configuration tfloat := [("lr", SFloat f)].

Definition tmanager_with (cells : list (@Configuration tfloat))
  : @ExperimentConfigManager tfloat :=
  {| _raw_pipeline_config := 0;
     raw_exp_config := {| config_space := tspace;
                          grid_dims := [("lr", 2%Z)];
                          exp_runs := VScalar (SInt 1) |};
     _config_space := tspace;
     grid := cells |}.

(** The counting pipeline of the samples, on these floats. *)
Definition tpipeline_failing (fail_at : option nat)
  : @Pipeline tfloat nat unit unit nat :=
  {| construct_model := fun _ _ _ w => (inr tt, w);
     construct_manager := fun _ w => (inr tt, w);
     set_model := fun _ _ w => (inr tt, w);
     run_pipeline := fun _ _ _ w =>
       (if bool_decide (fail_at = Some w)
        then inl (Exn "RuntimeError" "training diverged")
        else inr w, S w) |}.

Definition tstart (h : @heap tfloat) : @state tfloat nat unit unit nat :=
  {| st_heap := h; st_results := []; st_world := 0; st_trace := [] |}.

(** A configuration whose top-level dict is the params dict of the
    template: it has no [model] stage. *)
Definition config_without_model : ExperimentConfig :=
  {| _config := 3; _label := "no model" |}.

Definition experiment_without_model : Experiment :=
  {| exp_config := config_without_model; _results := 0 |}.

(** The raw experiment configuration of the samples, and the grid ConfigSpace
    is taken to generate for it. *)
Definition raw_exp : @RawExpConfig sfloat :=
  {| config_space := space; grid_dims := [("channels", 2%Z)]; exp_runs := int 1 |}.

Definition grid_of (_ : ConfigurationSpace) (_ : list (string * Z))
  : list (@Configuration sfloat) :=
  [cell16; cell32].

Definition str_opaque (_ : @heap sfloat) (_ : @val sfloat) : string := "<object>".

(** A value iterated as the list of company names it stands for. *)
Definition companies_of (companies : list string)
  : exn + InvestMain.iteration (list string) :=
  inr {| InvestMain.yielded := map (fun company => [company]) companies;
         InvestMain.ended_by := None |}.

End MoreSamples.

(** * Proofs *)

(** ** The monad *)

Lemma bind_inr {S A B : Type} (m : M S A) (k : A -> M S B) s b s' :
  bind m k s = (inr b, s') ->
  exists a s1, m s = (inr a, s1) /\ k a s1 = (inr b, s').
Proof.
  unfold bind. destruct (m s) as [[e | a] s1]; intros H.
  - discriminate.
  - eauto.
Qed.

Lemma bind_inl {S A B : Type} (m : M S A) (k : A -> M S B) s e s' :
  bind m k s = (inl e, s') ->
  m s = (inl e, s') \/ exists a s1, m s = (inr a, s1) /\ k a s1 = (inl e, s').
Proof.
  unfold bind. destruct (m s) as [[e1 | a] s1]; intros H.
  - left. congruence.
  - right. eauto.
Qed.

Lemma bind_step {S A B : Type} (m : M S A) (k : A -> M S B) s a s1 :
  m s = (inr a, s1) -> bind m k s = k a s1.
Proof. unfold bind. intros ->. reflexivity. Qed.

Lemma bind_raise {S A B : Type} (m : M S A) (k : A -> M S B) s e s1 :
  m s = (inl e, s1) -> bind m k s = (inl e, s1).
Proof. unfold bind. intros ->. reflexivity. Qed.

Lemma for_each_app {S A B : Type} (body : A -> B -> M S B) xs ys acc s acc' s' :
  for_each body xs acc s = (inr acc', s') ->
  for_each body (xs ++ ys) acc s = for_each body ys acc' s'.
Proof.
  revert acc s. induction xs as [| x xs IH]; intros acc s H; simpl in *.
  - unfold ret in H. congruence.
  - apply bind_inr in H as (b & s1 & Hx & Hrest).
    rewrite (bind_step _ _ _ _ _ Hx). eauto.
Qed.

(** Splitting a monadic equation into the equations of its steps. *)
Ltac step_in H :=
  let a := fresh "a" in
  let s := fresh "s" in
  let H1 := fresh H "_1" in
  apply bind_inr in H as (a & s & H1 & H).

Tactic Notation "bind_in" hyp(H) "as" ident(a) ident(s) ident(H1) :=
  apply bind_inr in H as (a & s & H1 & H).

Section StdnnFacts.

Context {float : Type}.
Variable round_float : float -> Z -> float.
Variable str_float : float -> string.

Implicit Types (h : @heap float) (d : @dict float) (v : @val float).

(** ** Dicts and the object table *)

Lemma dict_lookup_setitem_eq d k v : dict_lookup (dict_setitem d k v) k = Some v.
Proof.
  induction d as [| [k' v'] d IH]; simpl.
  - rewrite String.eqb_refl. reflexivity.
  - destruct (String.eqb k' k) eqn:E; simpl; rewrite E; auto.
Qed.

Lemma dict_lookup_setitem_ne d k k' v :
  k <> k' -> dict_lookup (dict_setitem d k v) k' = dict_lookup d k'.
Proof.
  intros Hne. induction d as [| [k0 v0] d IH]; simpl.
  - destruct (String.eqb_spec k k'); congruence.
  - destruct (String.eqb_spec k0 k) as [-> | Hk]; simpl.
    + destruct (String.eqb_spec k k'); congruence.
    + rewrite IH. reflexivity.
Qed.

Lemma deref_app_l h d l : l < length h -> deref (h ++ [d]) l = deref h l.
Proof. intros Hl. unfold deref, heap, dict, loc in *. rewrite lookup_app_l; auto. Qed.

Lemma deref_app_new h d : deref (h ++ [d]) (length h) = d.
Proof. unfold deref, heap, dict, loc in *. rewrite list_lookup_middle; auto. Qed.

Lemma deref_store_ne h l l' d : l <> l' -> deref (store l d h) l' = deref h l'.
Proof.
  intros Hne. unfold deref, store, heap, dict, loc in *.
  rewrite list_lookup_insert_ne; auto.
Qed.

Lemma deref_store_eq h l d : l < length h -> deref (store l d h) l = d.
Proof.
  intros Hl. unfold deref, store, heap, dict, loc in *.
  rewrite list_lookup_insert_eq; auto.
Qed.

Lemma store_new h d d' : store (length h) d' (h ++ [d]) = h ++ [d'].
Proof.
  unfold store, heap, dict, loc in *. rewrite insert_app_r_alt by lia.
  rewrite Nat.sub_diag. reflexivity.
Qed.

Lemma py_dict_inr v h c h' :
  py_dict v h = (inr c, h') ->
  exists d, items_of v h = Some d /\ c = length h /\ h' = h ++ [d].
Proof.
  destruct v as [[| b | z | f | [| a s]] | name | l]; simpl;
    unfold raise, alloc; intros H; inversion H; subst; eauto.
Qed.

Lemma py_dict_ref l h : py_dict (VRef l) h = (inr (length h), h ++ [deref h l]).
Proof. reflexivity. Qed.

(** ** Labels *)

Lemma label_item_spec param (value : @scalar float) :
  label_item round_float str_float param value
  = param +:+ "=" +:+ spec_value_text round_float str_float value.
Proof. destruct value as [| [|] | z | f | s]; reflexivity. Qed.

Lemma update_param_label self cur (item : string * @scalar float) label h label' h' :
  update_param round_float str_float self cur item label h = (inr label', h') ->
  label' = label ++ [label_item round_float str_float (fst item) (snd item)].
Proof.
  destruct item as [param value]. unfold update_param.
  intros H. bind_in H as key h0 Hkey. unfold reading in Hkey.
  injection Hkey as Hkey <-. destruct key as [key |]; [| discriminate].
  step_in H.
  destruct a as [[| b | z | f | s0] | name | l]; try discriminate;
    step_in H; unfold ret in H; inversion H; reflexivity.
Qed.

Lemma for_each_update_label self cur (cell : @Configuration float) label h label' h' :
  for_each (update_param round_float str_float self cur) cell label h = (inr label', h') ->
  label' = label ++ map (fun nv => label_item round_float str_float (fst nv) (snd nv)) cell.
Proof.
  revert label h. induction cell as [| item cell IH]; intros label h H; simpl in *.
  - unfold ret in H. inversion H. rewrite app_nil_r. reflexivity.
  - step_in H. apply update_param_label in H_1. apply IH in H. subst.
    rewrite <- app_assoc. reflexivity.
Qed.

Lemma next_config_label self (cell : @Configuration float) h c h' :
  next_config round_float str_float self cell h = (inr c, h') ->
  _label c = spec_label round_float str_float cell.
Proof.
  unfold next_config. intros H. step_in H. step_in H.
  apply for_each_update_label in H_0. simpl in H_0. subst a0.
  unfold ExperimentConfig_init in H. step_in H. unfold ret in H.
  inversion H. simpl. unfold spec_label. f_equal.
  apply map_ext. intros [param value]. apply label_item_spec.
Qed.

(** C6: the label of the configuration built for an assignment is the
    comma-joined [name=value] pairs of the assignment, in the assignment's
    order; a value that is an int or a float is written rounded to six
    decimals, any other value is written unmodified. *)
Theorem label_is_ordered_join self (cell : @Configuration float) h c h' :
  next_config round_float str_float self cell h = (inr c, h') ->
  _label c = spec_label round_float str_float cell.
Proof. apply next_config_label. Qed.

(** ** References stay inside a closed object table *)

Lemma dict_lookup_In d k v : dict_lookup d k = Some v -> exists k', In (k', v) d.
Proof.
  induction d as [| [k0 v0] d IH]; simpl; [discriminate |].
  destruct (String.eqb k0 k).
  - intros [= ->]. eauto.
  - intros H. destruct (IH H) as [k' Hk']. eauto.
Qed.

Lemma dict_get_ref_lookup d k (r : loc) :
  dict_get d k = VRef r -> dict_lookup d k = Some (VRef r).
Proof.
  unfold dict_get. destruct (dict_lookup d k); simpl; [congruence | discriminate].
Qed.

Lemma deref_ref_valid h l k (r : loc) :
  dict_get (deref h l) k = VRef r -> l < length h.
Proof.
  intros H. destruct (Nat.lt_ge_cases l (length h)) as [Hlt | Hge]; [exact Hlt |].
  unfold deref, heap, dict, loc in *. rewrite lookup_ge_None_2 in H by exact Hge.
  discriminate.
Qed.

Lemma bounded_ref n h l k (r : loc) :
  forallb (refs_below n) h = true -> dict_get (deref h l) k = VRef r -> r < n.
Proof.
  intros Hc H. pose proof (deref_ref_valid _ _ _ _ H) as Hl.
  unfold deref, heap, dict, loc in *.
  destruct (lookup_lt_is_Some_2 h l Hl) as [d Hd]. rewrite Hd in H. simpl in H.
  apply dict_get_ref_lookup, dict_lookup_In in H as [k' Hin].
  rewrite forallb_forall in Hc.
  assert (Hd' : In d h) by (apply list_elem_of_In, list_elem_of_lookup; eauto).
  specialize (Hc d Hd'). unfold refs_below in Hc. rewrite forallb_forall in Hc.
  specialize (Hc _ Hin). simpl in Hc. apply Nat.ltb_lt in Hc. exact Hc.
Qed.

Lemma closed_ref h l k (r : loc) :
  closed h = true -> dict_get (deref h l) k = VRef r -> r < length h.
Proof. apply bounded_ref. Qed.

Lemma refs_below_deref n h l :
  forallb (refs_below n) h = true -> refs_below n (deref h l) = true.
Proof.
  intros Hc. unfold deref, heap, dict, loc in *.
  destruct (h !! l) as [d |] eqn:Hd; simpl; [| reflexivity].
  rewrite forallb_forall in Hc. apply Hc.
  apply list_elem_of_In, list_elem_of_lookup. eauto.
Qed.

Lemma refs_below_setitem n d k (value : @scalar float) :
  refs_below n d = true -> refs_below n (dict_setitem d k (VScalar value)) = true.
Proof.
  unfold refs_below. induction d as [| [k0 v0] d IH]; simpl; [reflexivity |].
  intros H. apply andb_prop in H as [H0 Hd].
  destruct (String.eqb k0 k); simpl.
  - exact Hd.
  - rewrite H0. simpl. auto.
Qed.

Lemma forallb_store (f : @dict float -> bool) h l d :
  forallb f h = true -> f d = true -> forallb f (store l d h) = true.
Proof.
  unfold store, heap, dict, loc in *. revert l.
  induction h as [| d0 h IH]; intros l Hh Hd; simpl in *; [reflexivity |].
  apply andb_prop in Hh as [H0 Hh].
  destruct l as [| l]; simpl.
  - rewrite Hd. exact Hh.
  - rewrite H0. simpl. apply IH; assumption.
Qed.

Lemma closed_alloc_copy h l :
  closed h = true -> forallb (refs_below (length h)) (h ++ [deref h l]) = true.
Proof.
  intros Hc. rewrite forallb_app. unfold closed in Hc. rewrite Hc. simpl.
  rewrite refs_below_deref by exact Hc. reflexivity.
Qed.

(** ** The getters of ExperimentConfig *)

Lemma stage_params_ref self stage h v :
  stage_params self stage h = inr v ->
  exists s, dict_get (deref h (_config self)) stage = VRef s
            /\ v = dict_get (deref h s) "params".
Proof.
  unfold stage_params. simpl.
  destruct (dict_get (deref h (_config self)) stage) as [[| b | z | f | s0] | name | s];
    simpl; try discriminate.
  intros [= <-]. eauto.
Qed.

Lemma stored_params_app self stage h d :
  closed h = true ->
  is_Some (stored_params self stage h) ->
  stored_params self stage (h ++ [d]) = stored_params self stage h.
Proof.
  intros Hc [items Hi]. unfold stored_params in *.
  destruct (stage_params self stage h) as [e | v] eqn:Hv; [discriminate |].
  destruct (stage_params_ref _ _ _ _ Hv) as (s & Hs & ->).
  pose proof (deref_ref_valid _ _ _ _ Hs) as Hcfg.
  pose proof (closed_ref _ _ _ _ Hc Hs) as Hstage.
  unfold stage_params in *. simpl in *.
  rewrite deref_app_l by exact Hcfg. rewrite Hs in *. simpl in *.
  rewrite deref_app_l by exact Hstage.
  destruct (dict_get (deref h s) "params") as [sc | name | p] eqn:Hp; simpl in *.
  - reflexivity.
  - reflexivity.
  - rewrite deref_app_l; [reflexivity |]. eapply closed_ref; eauto.
Qed.

Lemma stage_params_at self stage h s v :
  dict_get (deref h (_config self)) stage = VRef s ->
  dict_get (deref h s) "params" = v ->
  stage_params self stage h = inr v.
Proof. intros Hs Hp. unfold stage_params. simpl. rewrite Hs. simpl. congruence. Qed.

Lemma params_copy_is_shallow stage :
  shallow_copy_getter
    (fun self : ExperimentConfig =>
       do p <- reading (@stage_params float self stage); py_dict p)
    stage.
Proof.
  intros self h s p Hc Hs Hp.
  pose proof (stage_params_at _ _ _ _ _ Hs Hp) as Hv.
  assert (Hstored : stored_params self stage h = Some (deref h p)).
  { unfold stored_params. rewrite Hv. reflexivity. }
  split; [| split].
  - unfold bind, reading. rewrite Hv. apply py_dict_ref.
  - exact Hstored.
  - intros d'. rewrite store_new. split.
    + intros l Hl. apply deref_app_l. exact Hl.
    + apply stored_params_app; [exact Hc | rewrite Hstored; eauto].
Qed.

Lemma dict_get_setitem_ne d k k' v :
  k <> k' -> dict_get (dict_setitem d k v) k' = dict_get d k'.
Proof. intros Hne. unfold dict_get. rewrite dict_lookup_setitem_ne; auto. Qed.

(** Writing a key into one dict leaves every other key of every dict as it
    was. *)
Lemma dict_get_store_setitem h p k v l k' :
  k <> k' ->
  dict_get (deref (store p (dict_setitem (deref h p) k v) h) l) k'
  = dict_get (deref h l) k'.
Proof.
  intros Hne. destruct (decide (p = l)) as [-> | Hpl].
  - destruct (Nat.lt_ge_cases l (length h)) as [Hlt | Hge].
    + rewrite deref_store_eq by exact Hlt. apply dict_get_setitem_ne. exact Hne.
    + unfold store, heap, dict, loc in *. rewrite list_insert_ge by exact Hge. reflexivity.
  - rewrite deref_store_ne by exact Hpl. reflexivity.
Qed.

Lemma testing_params_alias self h p :
  closed h = true ->
  stage_params self "test" h = inr (VRef p) ->
  exists key value,
    stored_params self "test" (store p (dict_setitem (deref h p) key value) h)
    <> stored_params self "test" h.
Proof.
  intros Hc Hv.
  destruct (stage_params_ref _ _ _ _ Hv) as (s & Hs & Hp).
  symmetry in Hp. pose proof (closed_ref _ _ _ _ Hc Hp) as Hlt.
  set (key := "epochs").
  set (value := match dict_lookup (deref h p) key with
                | Some (VScalar (SInt 0)) => @VScalar float (SInt 1)
                | _ => VScalar (SInt 0)
                end).
  exists key, value.
  assert (Hpath : stage_params self "test"
                    (store p (dict_setitem (deref h p) key value) h) = inr (VRef p)).
  { unfold stage_params. simpl.
    rewrite dict_get_store_setitem by discriminate. rewrite Hs. simpl.
    rewrite dict_get_store_setitem by discriminate. rewrite Hp. reflexivity. }
  unfold stored_params. rewrite Hpath, Hv. simpl.
  rewrite deref_store_eq by exact Hlt.
  intros [= Heq].
  pose proof (dict_lookup_setitem_eq (deref h p) key value) as Hnew.
  rewrite Heq in Hnew. subst value.
  destruct (dict_lookup (deref h p) key) as [[[| b | z | f | s0] | name | l] |];
    try discriminate.
  destruct z; discriminate.
Qed.

(** C9: for a configuration that holds a params dict for the stage,
    [get_model_params], [get_preprocessing_params], [get_training_params]
    and [get_validation_params] each return a newly made shallow copy:
    whatever is then written at the top level of the returned dict, every
    dict that existed keeps its contents and the configuration holds the
    same params.  [get_testing_params] makes no copy: it returns the stored
    dict itself, so a write through the returned dict changes the test
    params the configuration holds. *)
Theorem getters_copy_except_testing :
  shallow_copy_getter (@get_model_params float) "model" /\
  shallow_copy_getter (@get_preprocessing_params float) "preprocess" /\
  shallow_copy_getter (@get_training_params float) "train" /\
  shallow_copy_getter (@get_validation_params float) "validate" /\
  (forall (self : ExperimentConfig) (h : @heap float) (s p : loc),
      closed h = true ->
      dict_get (deref h (_config self)) "test" = VRef s ->
      dict_get (deref h s) "params" = VRef p ->
      aliases_params_at (@get_testing_params float) "test" self h p).
Proof.
  do 4 (split; [apply params_copy_is_shallow |]).
  intros self h s p Hc Hs Hp.
  pose proof (stage_params_at _ _ _ _ _ Hs Hp) as Hv. split.
  - unfold get_testing_params, reading. rewrite Hv. reflexivity.
  - apply testing_params_alias; [exact Hc | exact Hv].
Qed.

(** ** Building a configuration *)

(** One hyperparameter of the cell writes below the copy [current_config]
    and nowhere else at the top level: whether it raises or not, the items
    of the copy are what they were. *)
Lemma update_param_frame self cur (item : string * @scalar float) label h r h' :
  forallb (refs_below cur) h = true ->
  update_param round_float str_float self cur item label h = (r, h') ->
  forallb (refs_below cur) h' = true /\ deref h' cur = deref h cur.
Proof.
  intros Hb. destruct item as [param value]. unfold update_param.
  unfold bind at 1. unfold reading at 1.
  destruct (meta_config (_config_space self) param) as [e | [key |]];
    [intros [= <- <-]; auto | | unfold raise; intros [= <- <-]; auto].
  unfold bind, reading.
  destruct (dict_get (deref h cur) key) as [[| b | z | f | s0] | name | stage] eqn:Hstage;
    unfold raise, dictionary_update_deep, ret;
    try solve [intros [= <- <-]; auto].
  destruct (dict_get (deref h stage) "params") as [sc | name | params] eqn:Hparams;
    try solve [intros [= <- <-]; auto].
  intros [= <- <-].
  pose proof (bounded_ref _ _ _ _ _ Hb Hparams) as Hlt.
  split.
  - apply forallb_store; [exact Hb |].
    apply refs_below_setitem, refs_below_deref. exact Hb.
  - apply deref_store_ne. lia.
Qed.

Lemma for_each_update_frame self cur (cell : @Configuration float) label h r h' :
  forallb (refs_below cur) h = true ->
  for_each (update_param round_float str_float self cur) cell label h = (r, h') ->
  forallb (refs_below cur) h' = true /\ deref h' cur = deref h cur.
Proof.
  revert label h. induction cell as [| item cell IH]; intros label h Hb H; simpl in H.
  - unfold ret in H. injection H as _ <-. auto.
  - unfold bind in H.
    destruct (update_param round_float str_float self cur item label h)
      as [[e | label1] h1] eqn:Hitem;
      destruct (update_param_frame _ _ _ _ _ _ _ Hb Hitem) as [Hb1 Hcur1].
    + injection H as _ <-. auto.
    + destruct (IH _ _ Hb1 H) as [Hb2 Hcur2]. split; congruence.
Qed.

(** The configuration built for a cell holds, stage by stage, the very
    references the template holds: only the top-level dict is new. *)
Lemma next_config_shares_stages self (cell : @Configuration float) h c h' :
  closed h = true ->
  next_config round_float str_float self cell h = (inr c, h') ->
  deref h' (_config c) = deref h (_raw_pipeline_config self).
Proof.
  intros Hc H. unfold next_config in H.
  rewrite (bind_step _ _ _ _ _ (py_dict_ref _ _)) in H. step_in H.
  destruct (for_each_update_frame _ _ _ _ _ _ _ (closed_alloc_copy _ _ Hc) H_1)
    as [_ Hcur].
  unfold ExperimentConfig_init in H.
  rewrite (bind_step _ _ _ _ _ (py_dict_ref _ _)) in H.
  unfold ret in H. injection H as <- <-. simpl.
  rewrite deref_app_new, Hcur. apply deref_app_new.
Qed.

(** A hyperparameter whose binding resolves is written into the params
    dict the template's own stage holds, and the configuration built holds
    that same stage. *)
Lemma next_config_writes_template self param (value : @scalar float) key stage params h :
  closed h = true ->
  meta_config (_config_space self) param = inr (Some key) ->
  dict_get (deref h (_raw_pipeline_config self)) key = VRef stage ->
  dict_get (deref h stage) "params" = VRef params ->
  exists c h',
    next_config round_float str_float self [(param, value)] h = (inr c, h')
    /\ dict_get (deref h' (_config c)) key = VRef stage
    /\ dict_lookup (deref h' params) param = Some (VScalar value).
Proof.
  intros Hc Hkey Hstage Hparams.
  pose proof (closed_ref _ _ _ _ Hc Hstage) as Hs.
  pose proof (closed_ref _ _ _ _ Hc Hparams) as Hp.
  set (h1 := h ++ [deref h (_raw_pipeline_config self)]).
  set (h2 := store params (dict_setitem (deref h params) param (VScalar value)) h1).
  assert (Hlen1 : length h1 = S (length h)).
  { subst h1. unfold heap, dict, loc in *. rewrite length_app. simpl. lia. }
  assert (Hlen2 : length h2 = S (length h)).
  { subst h2. unfold store, heap, dict, loc in *. rewrite length_insert. exact Hlen1. }
  assert (Hcur2 : deref h2 (length h) = deref h (_raw_pipeline_config self)).
  { subst h2. rewrite deref_store_ne by lia. apply deref_app_new. }
  assert (Hbuild : next_config round_float str_float self [(param, value)] h
                   = (inr {| _config := S (length h);
                             _label := String.concat ","
                                         [label_item round_float str_float param value] |},
                      h2 ++ [deref h2 (length h)])).
  { unfold next_config. rewrite (bind_step _ _ _ _ _ (py_dict_ref _ _)).
    fold h1. simpl for_each. unfold update_param.
    unfold bind at 2. unfold reading at 1. rewrite Hkey.
    assert (Hd1 : deref h1 (length h) = deref h (_raw_pipeline_config self))
      by apply deref_app_new.
    assert (Hd1s : deref h1 stage = deref h stage) by (apply deref_app_l; exact Hs).
    assert (Hd1p : deref h1 params = deref h params) by (apply deref_app_l; exact Hp).
    unfold bind, reading, dictionary_update_deep, ret, ExperimentConfig_init.
    rewrite Hd1, Hstage, Hd1s, Hparams, Hd1p. fold h2.
    simpl. unfold bind, alloc, ret. rewrite Hlen2. reflexivity. }
  eexists. eexists. split; [exact Hbuild |]. simpl. split.
  - rewrite <- Hlen2, deref_app_new, Hcur2. exact Hstage.
  - rewrite deref_app_l by lia. subst h2.
    rewrite deref_store_eq by lia. apply dict_lookup_setitem_eq.
Qed.

Lemma next_config_unresolved self (before after : @Configuration float)
    param value h c h1 :
  closed h = true ->
  next_config round_float str_float self before h = (inr c, h1) ->
  resolves self h param = false ->
  exists msg h2,
    next_config round_float str_float self (before ++ (param, value) :: after) h
    = (inl (Exn (unresolved_class self param) msg), h2).
Proof.
  intros Hc Hbefore Hres. unfold next_config in *.
  rewrite (bind_step _ _ _ _ _ (py_dict_ref _ _)) in Hbefore.
  rewrite (bind_step _ _ _ _ _ (py_dict_ref _ _)).
  step_in Hbefore.
  destruct (for_each_update_frame _ _ _ _ _ _ _ (closed_alloc_copy _ _ Hc) Hbefore_1)
    as [_ Hcur].
  rewrite deref_app_new in Hcur.
  unfold bind at 1. rewrite (for_each_app _ _ _ _ _ _ _ Hbefore_1).
  simpl. unfold bind at 2. unfold update_param, resolves, unresolved_class in *.
  unfold bind at 2. unfold reading at 1. unfold meta_config, meta_get in *.
  destruct (meta (get_hyperparameter (_config_space self) param)) as [entries |].
  - destruct (snd <$> find (fun kv => String.eqb (fst kv) "config") entries)
      as [key |].
    + unfold bind, reading. rewrite Hcur.
      destruct (dict_get (deref h (_raw_pipeline_config self)) key)
        as [[| b | z | f | s0] | name | stage]; try discriminate.
      unfold raise, ValueError. eauto.
    + unfold raise, ValueError. eauto.
  - unfold AttributeError. eauto.
Qed.

(** ** Running the pipeline *)

Context {W Model Manager RunResult Aggregate : Type}.
Variable pipeline : @Pipeline float W Model Manager RunResult.
Variable combine : @RunResultSet RunResult -> exn + Aggregate.

Implicit Types (st : @state float W Model Manager RunResult).

Lemma on_heap_frame {A : Type} (m : M heap A) st r st' :
  on_heap m st = (r, st') ->
  m (st_heap st) = (r, st_heap st') /\ st_results st' = st_results st
  /\ st_world st' = st_world st /\ st_trace st' = st_trace st.
Proof.
  unfold on_heap. destruct (m (st_heap st)) as [r0 h0]. intros [= <- <-]. auto.
Qed.

Lemma on_heap_reading {A : Type} (f : heap -> exn + A) st :
  on_heap (reading f) st = (f (st_heap st), st).
Proof. destruct st. reflexivity. Qed.

Lemma external_frame {A : Type} (f : heap -> W -> (exn + A) * W) ev st r st' :
  external f ev st = (r, st') ->
  st_heap st' = st_heap st /\ st_results st' = st_results st
  /\ st_trace st' = st_trace st ++ [ev r].
Proof.
  unfold external. destruct (f (st_heap st) (st_world st)) as [r0 w0].
  intros [= <- <-]. auto.
Qed.

(** C4, as the code has it: when the hyperparameters before it in the cell
    have been written and the binding of the next one does not resolve
    inside the template, the pass of [run_experiments] for that cell
    raises: an [AttributeError] when the hyperparameter was declared
    without meta, a [ValueError] when its meta declares no binding or the
    template has no stage under the bound key.  It does so before any call
    into the pipeline: no event is recorded, and neither the pipeline's
    state nor any result set has changed. *)
Theorem unresolved_binding_raises_before_pipeline
    self (before after : @Configuration float) param value results st c h1 :
  closed (st_heap st) = true ->
  next_config round_float str_float (mgr_config self) before (st_heap st) = (inr c, h1) ->
  resolves (mgr_config self) (st_heap st) param = false ->
  exists e st',
    run_cell round_float str_float pipeline combine self
             (before ++ (param, value) :: after) results st
    = (inl e, st')
    /\ exn_class e
       = match meta (get_hyperparameter (_config_space (mgr_config self)) param) with
         | None => "AttributeError"
         | Some _ => "ValueError"
         end
    /\ st_trace st' = st_trace st
    /\ st_world st' = st_world st
    /\ st_results st' = st_results st.
Proof.
  intros Hc Hbefore Hres.
  destruct (next_config_unresolved _ _ after _ value _ _ _ Hc Hbefore Hres)
    as (msg & h2 & Hn).
  eexists. eexists. split.
  - unfold run_cell, cell_aggregate.
    erewrite bind_raise; [reflexivity |].
    erewrite bind_raise; [reflexivity |].
    unfold on_heap. rewrite Hn. reflexivity.
  - simpl. auto.
Qed.



(** A pass never touches a result set, whatever its outcome. *)
Lemma run_once_results config st r st' :
  run_once pipeline config st = (r, st') -> st_results st' = st_results st.
Proof.
  unfold run_once, bind. rewrite !on_heap_reading.
  destruct (model_type config (st_heap st)) as [e | ty]; [intros [= _ <-]; auto |].
  destruct (on_heap (get_model_params config) st) as [[e | params] st1] eqn:H1;
    apply on_heap_frame in H1 as (_ & Hr1 & _); [intros [= _ <-]; auto |].
  assert (Hext : forall A (f : heap -> W -> (exn + A) * W) ev st5 x st6,
             external f ev st5 = (x, st6) -> st_results st6 = st_results st5).
  { intros A f ev st5 x st6 H. apply external_frame in H. tauto. }
  assert (Hraise : forall A e st5 (x : exn + A) st6,
             @raise _ A e st5 = (x, st6) -> st_results st6 = st_results st5).
  { unfold raise. intros A e st5 x st6 [= _ <-]. reflexivity. }
  destruct (call_model_type pipeline ty params st1) as [[e | model] st2] eqn:H2.
  { intros [= _ <-]. rewrite <- Hr1.
    destruct ty; simpl in H2; eauto. }
  assert (Hr2 : st_results st2 = st_results st1)
    by (destruct ty; simpl in H2; eauto).
  rewrite on_heap_reading.
  destruct (model_manager config (st_heap st2)) as [e | mty];
    [intros [= _ <-]; congruence |].
  destruct (call_model_manager pipeline mty st2) as [[e | manager] st3] eqn:H3.
  { intros [= _ <-]. rewrite <- Hr1, <- Hr2.
    destruct mty; simpl in H3; eauto. }
  assert (Hr3 : st_results st3 = st_results st2)
    by (destruct mty; simpl in H3; eauto).
  destruct (external _ _ st3) as [[e | u] st4] eqn:H4;
    apply Hext in H4; [intros [= _ <-]; congruence |].
  intros H5. apply Hext in H5. congruence.
Qed.

(** ** The repeat loop *)

Lemma results_of_add_result (r : loc) (result : RunResult) st :
  r < length (st_results st) ->
  results_of (snd (RunResultSet_add_result r result st)) r
  = results_of st r ++ [result].
Proof.
  intros Hr. unfold RunResultSet_add_result, results_of. simpl.
  rewrite list_lookup_insert_eq by exact Hr. reflexivity.
Qed.

Lemma run_loop_step n self st result st1 :
  run_once pipeline (exp_config self) st = (inr result, st1) ->
  run_loop pipeline (S n) self st
  = run_loop pipeline n self
      (snd (log EvUpdate (snd (RunResultSet_add_result (_results self) result st1)))).
Proof. intros H. simpl. rewrite (bind_step _ _ _ _ _ H). reflexivity. Qed.

Lemma run_loop_first n self st x st' :
  run_loop pipeline (S n) self st = (x, st') ->
  (exists e, run_once pipeline (exp_config self) st = (inl e, st') /\ x = inl e)
  \/ exists result st1,
       run_once pipeline (exp_config self) st = (inr result, st1)
       /\ run_loop pipeline n self
            (snd (log EvUpdate (snd (RunResultSet_add_result (_results self) result st1))))
          = (x, st').
Proof.
  destruct (run_once pipeline (exp_config self) st) as [[e | result] st1] eqn:H1.
  - simpl. rewrite (bind_raise _ _ _ _ _ H1). intros [= <- <-]. left. eauto.
  - rewrite (run_loop_step _ _ _ _ _ H1). intros H. right. eauto.
Qed.

(** Each pass that succeeds appends one result to the set of the
    experiment. *)
Lemma run_loop_results n self : forall st st',
  _results self < length (st_results st) ->
  run_loop pipeline n self st = (inr tt, st') ->
  length (st_results st') = length (st_results st)
  /\ exists rs, length rs = n
                /\ results_of st' (_results self) = results_of st (_results self) ++ rs.
Proof.
  induction n as [| n IH]; intros st st' Hr H.
  - simpl in H. unfold ret in H. injection H as <-.
    split; [reflexivity |]. exists []. rewrite app_nil_r. auto.
  - apply run_loop_first in H as [(e & _ & He) | (result & st1 & H1 & Hrest)];
      [discriminate |].
    pose proof (run_once_results _ _ _ _ H1) as Hres1.
    assert (Hr1 : _results self < length (st_results st1)) by (rewrite Hres1; exact Hr).
    pose proof (results_of_add_result _ result _ Hr1) as Hadd.
    set (st2 := snd (RunResultSet_add_result (_results self) result st1)) in *.
    assert (Hlen2 : length (st_results st2) = length (st_results st1))
      by (subst st2; simpl; apply length_insert).
    assert (Hres3 : st_results (snd (log EvUpdate st2)) = st_results st2)
      by reflexivity.
    apply IH in Hrest as (Hlen & rs & Hrs & Heq); [| rewrite Hres3, Hlen2; exact Hr1].
    split; [rewrite Hlen, Hres3, Hlen2, Hres1; reflexivity |].
    exists (result :: rs). split; [simpl; congruence |].
    rewrite Heq. unfold results_of at 1. rewrite Hres3.
    fold (results_of st2 (_results self)). rewrite Hadd.
    unfold results_of. rewrite Hres1, <- app_assoc. reflexivity.
Qed.

Lemma run_loop_compose k m self : forall st st_k,
  run_loop pipeline k self st = (inr tt, st_k) ->
  run_loop pipeline (k + m) self st = run_loop pipeline m self st_k.
Proof.
  induction k as [| k IH]; intros st st_k H.
  - simpl in H. unfold ret in H. injection H as <-. reflexivity.
  - apply run_loop_first in H as [(e & _ & He) | (result & st1 & H1 & Hrest)];
      [discriminate |].
    change (S k + m) with (S (k + m)). rewrite (run_loop_step _ _ _ _ _ H1).
    apply IH. exact Hrest.
Qed.

(** What the loop raises, a pass raised. *)
Lemma run_loop_inl n self : forall st e st',
  run_loop pipeline n self st = (inl e, st') ->
  exists st1, run_once pipeline (exp_config self) st1 = (inl e, st').
Proof.
  induction n as [| n IH]; intros st e st' H.
  - discriminate.
  - apply run_loop_first in H as [(e' & H1 & He) | (result & st1 & H1 & Hrest)].
    + injection He as ->. eauto.
    + eauto.
Qed.

Lemma run_unfold self (repeat : Z) st :
  run pipeline self (VScalar (SInt repeat)) st
  = bind (run_loop pipeline (Z.to_nat repeat) self) (fun _ => log EvClose)
         (snd (log (EvTqdm (VScalar (SInt repeat))) st)).
Proof. reflexivity. Qed.

(** C2, as the code has it: when the first [k] passes succeed and the next
    one raises, [run] raises that very exception, as the pipeline raised
    it: nothing wraps it, and it carries neither the index of the pass nor
    the results so far.  The [k] results collected before it stay in the
    result set of the experiment. *)
Theorem pipeline_failure_propagates_cause self (repeat : Z) st k st_k e st_e :
  _results self < length (st_results st) ->
  k < Z.to_nat repeat ->
  run_loop pipeline k self (snd (log (EvTqdm (VScalar (SInt repeat))) st))
  = (inr tt, st_k) ->
  run_once pipeline (exp_config self) st_k = (inl e, st_e) ->
  run pipeline self (VScalar (SInt repeat)) st = (inl e, st_e)
  /\ exists rs, length rs = k
                /\ results_of st_e (_results self)
                   = results_of st (_results self) ++ rs.
Proof.
  intros Hr Hk Hloop Hfail. split.
  - rewrite run_unfold. apply bind_raise.
    replace (Z.to_nat repeat) with (k + S (Z.to_nat repeat - S k)) by lia.
    rewrite (run_loop_compose _ _ _ _ _ Hloop).
    simpl. apply bind_raise. exact Hfail.
  - apply run_loop_results in Hloop as (_ & rs & Hlen & Heq); [| exact Hr].
    exists rs. split; [exact Hlen |].
    pose proof (run_once_results _ _ _ _ Hfail) as Hres.
    unfold results_of in *. rewrite Hres. exact Heq.
Qed.

(** C3, as the code has it: [run] does not check the repeat count.  A
    count below 1 raises nothing: the loop body is never entered, no call
    into the pipeline is made, no result is added, and [run] returns; and
    for no count at all does [run] raise an error of its own: what it
    raises, a pass through the pipeline raised. *)
Theorem repeat_count_is_not_validated self st :
  (forall repeat : Z,
      (repeat < 1)%Z ->
      run pipeline self (VScalar (SInt repeat)) st
      = (inr tt,
         {| st_heap := st_heap st; st_results := st_results st;
            st_world := st_world st;
            st_trace := (st_trace st ++ [EvTqdm (VScalar (SInt repeat))]) ++ [EvClose] |}))
  /\ (forall (repeat : Z) e st',
         run pipeline self (VScalar (SInt repeat)) st = (inl e, st') ->
         exists st1, run_once pipeline (exp_config self) st1 = (inl e, st')).
Proof.
  split.
  - intros repeat Hlt. rewrite run_unfold.
    replace (Z.to_nat repeat) with 0 by lia. reflexivity.
  - intros repeat e st' H. rewrite run_unfold in H.
    apply bind_inl in H as [H | (u & st1 & _ & H)].
    + eapply run_loop_inl. exact H.
    + discriminate.
Qed.

(** ** The calls of a run *)

Lemma refs_below_mono n m d :
  n <= m -> refs_below n d = true -> refs_below m d = true.
Proof.
  intros Hle. unfold refs_below. rewrite !forallb_forall.
  intros H kv Hin. specialize (H kv Hin).
  destruct (snd kv) as [sc | name | r]; auto.
  apply Nat.ltb_lt in H. apply Nat.ltb_lt. lia.
Qed.

Lemma closed_app h d :
  closed h = true -> refs_below (length h) d = true -> closed (h ++ [d]) = true.
Proof.
  intros Hc Hd. unfold closed in *. rewrite length_app. simpl.
  rewrite forallb_app. simpl.
  rewrite (refs_below_mono (length h)) by (auto; lia).
  rewrite andb_true_r. rewrite forallb_forall in *.
  intros x Hx. apply (refs_below_mono (length h)); [lia | auto].
Qed.






(** ** Collating the results *)

Lemma has_key_In (results : @ExperimentResultSet Aggregate) key :
  has_key results key = true <-> In key (map fst results).
Proof.
  unfold has_key. rewrite existsb_exists, in_map_iff. split.
  - intros (kv & Hin & Heq). apply String.eqb_eq in Heq. eauto.
  - intros (kv & Heq & Hin). exists kv. split; [exact Hin |].
    apply String.eqb_eq. exact Heq.
Qed.

Lemma cell_aggregate_label self (cell : @Configuration float) st aggregate key st' :
  cell_aggregate round_float str_float pipeline combine self cell st
  = (inr (aggregate, key), st') ->
  key = spec_label round_float str_float cell.
Proof.
  unfold cell_aggregate. intros H.
  bind_in H as config st1 Hconfig.
  apply on_heap_frame in Hconfig as (Hconfig & _).
  apply next_config_label in Hconfig.
  bind_in H as experiment st2 Hexp. bind_in H as u1 st3 Hlog.
  bind_in H as u2 st4 Hrun. bind_in H as rs st5 Hrs.
  bind_in H as agg st6 Hagg.
  unfold ret in H. injection H as _ <- _. unfold get_label. exact Hconfig.
Qed.

Lemma run_cell_inr self (cell : @Configuration float) results st results' st' :
  run_cell round_float str_float pipeline combine self cell results st
  = (inr results', st') ->
  has_key results (spec_label round_float str_float cell) = false
  /\ exists aggregate,
       results' = results ++ [(spec_label round_float str_float cell, aggregate)].
Proof.
  unfold run_cell. intros H. bind_in H as x st1 Hx.
  destruct x as [aggregate key]. apply cell_aggregate_label in Hx. subst key.
  unfold reading, ExperimentResultSet_add_result in H. simpl in H.
  destruct (has_key results (spec_label round_float str_float cell));
    [discriminate |].
  injection H as <- _. eauto.
Qed.

Lemma run_cell_duplicate self (cell : @Configuration float) results st :
  has_key results (spec_label round_float str_float cell) = true ->
  run_cell round_float str_float pipeline combine self cell results st
  = match cell_aggregate round_float str_float pipeline combine self cell st with
    | (inl e, st') => (inl e, st')
    | (inr _, st') => (inl (DuplicateLabel (spec_label round_float str_float cell)), st')
    end.
Proof.
  intros Hkey. unfold run_cell, bind.
  destruct (cell_aggregate round_float str_float pipeline combine self cell st)
    as [[e | [aggregate key]] st'] eqn:Hagg; [reflexivity |].
  apply cell_aggregate_label in Hagg. subst key.
  unfold reading, ExperimentResultSet_add_result. simpl. rewrite Hkey. reflexivity.
Qed.

Lemma run_cells_keys self (cells : list (@Configuration float)) :
  forall results st results' st',
    for_each (run_cell round_float str_float pipeline combine self) cells results st
    = (inr results', st') ->
    map fst results'
    = map fst results ++ map (spec_label round_float str_float) cells
    /\ (NoDup (map fst results) -> NoDup (map fst results')).
Proof.
  induction cells as [| cell cells IH]; intros results st results' st' H; simpl in H.
  - unfold ret in H. injection H as <- _. rewrite app_nil_r. auto.
  - bind_in H as results1 st1 Hcell.
    apply run_cell_inr in Hcell as (Hfresh & aggregate & ->).
    apply IH in H as (Hkeys & Hnodup). split.
    + rewrite Hkeys, map_app. simpl. rewrite <- app_assoc. reflexivity.
    + intros Hnd. apply Hnodup. rewrite map_app. simpl.
      apply NoDup_app. repeat split.
      * exact Hnd.
      * intros key Hin Hin'. apply list_elem_of_In in Hin, Hin'.
        destruct Hin' as [<- | []].
        apply has_key_In in Hin. congruence.
      * apply NoDup_singleton.
Qed.

(** C8, as the code has it: [run_experiments] has no check of its own for
    a label that is already a key.  When the cells before it have been run
    and collated and a cell has the label of one of them, its configuration
    is first built and run, and its results combined: if that raises,
    [run_experiments] raises the same; if not, the insertion of the
    aggregate raises [DuplicateLabel] instead of overwriting.  Whenever
    [run_experiments] returns a result set, its keys are the labels of the
    grid cells in grid order, each present once: no key has been
    overwritten; so with two cells of one label it does not return. *)
Theorem duplicate_label_is_never_overwritten self :
  (forall (before after : list (@Configuration float)) cell st results st1,
      grid (mgr_config self) = before ++ cell :: after ->
      for_each (run_cell round_float str_float pipeline combine self) before [] st
      = (inr results, st1) ->
      In (spec_label round_float str_float cell)
         (map (spec_label round_float str_float) before) ->
      run_experiments round_float str_float pipeline combine self st
      = match cell_aggregate round_float str_float pipeline combine self cell st1 with
        | (inl e, st2) => (inl e, st2)
        | (inr _, st2) => (inl (DuplicateLabel (spec_label round_float str_float cell)), st2)
        end)
  /\ (forall st results st',
         run_experiments round_float str_float pipeline combine self st
         = (inr results, st') ->
         map fst results
         = map (spec_label round_float str_float) (grid (mgr_config self))
         /\ NoDup (map fst results))
  /\ (~ NoDup (map (spec_label round_float str_float) (grid (mgr_config self))) ->
      forall st, exists e,
        fst (run_experiments round_float str_float pipeline combine self st) = inl e).
Proof.
  assert (Hkeys : forall st results st',
             run_experiments round_float str_float pipeline combine self st
             = (inr results, st') ->
             map fst results
             = map (spec_label round_float str_float) (grid (mgr_config self))
             /\ NoDup (map fst results)).
  { intros st results st' H. unfold run_experiments in H.
    apply run_cells_keys in H as (Hkeys & Hnodup). split.
    - exact Hkeys.
    - apply Hnodup. apply NoDup_nil_2. }
  split; [| split].
  - intros before after cell st results st1 Hgrid Hbefore Hdup.
    unfold run_experiments. rewrite Hgrid.
    rewrite (for_each_app _ _ _ _ _ _ _ Hbefore). simpl.
    apply run_cells_keys in Hbefore as (Hbefore & _). simpl in Hbefore.
    assert (Hkey : has_key results (spec_label round_float str_float cell) = true)
      by (apply has_key_In; rewrite Hbefore; exact Hdup).
    unfold bind at 1. rewrite (run_cell_duplicate _ _ _ _ Hkey).
    destruct (cell_aggregate round_float str_float pipeline combine self cell st1)
      as [[e | x] st2]; reflexivity.
  - exact Hkeys.
  - intros Hdup st.
    destruct (run_experiments round_float str_float pipeline combine self st)
      as [[e | results] st'] eqn:Hrun.
    + exists e. reflexivity.
    + exfalso. apply Hdup. apply Hkeys in Hrun as [<- Hnodup]. exact Hnodup.
Qed.

(** ** What a run leaves behind *)

Lemma get_method_inl v k h e :
  get_method v k h = inl e -> exn_class e = "AttributeError".
Proof.
  destruct v as [[| b | z | f | s] | name | l]; simpl; intros [= <-]; reflexivity.
Qed.

Lemma model_meta_inl self field h e :
  model_meta self field h = inl e -> exn_class e = "AttributeError".
Proof.
  unfold model_meta. simpl.
  destruct (get_method (dict_get (deref h (_config self)) "model") "meta" h)
    as [e1 | meta] eqn:Hmeta.
  - intros [= <-]. eapply get_method_inl. exact Hmeta.
  - apply get_method_inl.
Qed.

Lemma stage_params_inl self stage h e :
  stage_params self stage h = inl e -> exn_class e = "AttributeError".
Proof. unfold stage_params. simpl. apply get_method_inl. Qed.

Lemma py_dict_inl v h e h' :
  py_dict v h = (inl e, h') ->
  h' = h /\ (exn_class e = "TypeError" \/ exn_class e = "ValueError").
Proof.
  destruct v as [[| b | z | f | [| a s]] | name | l]; simpl;
    unfold raise, alloc; intros [= <- <-]; auto.
Qed.

Lemma extends_refl st : extends [] 0 st st.
Proof.
  split; [rewrite app_nil_r; reflexivity |].
  exists []. rewrite app_nil_r. auto.
Qed.

Lemma extends_trans evs1 evs2 k1 k2 st st1 st2 :
  extends evs1 k1 st st1 -> extends evs2 k2 st1 st2 ->
  extends (evs1 ++ evs2) (k1 + k2) st st2.
Proof.
  intros [Ht1 (c1 & Hh1 & Hl1)] [Ht2 (c2 & Hh2 & Hl2)]. split.
  - rewrite Ht2, Ht1, app_assoc. reflexivity.
  - exists (c1 ++ c2). rewrite Hh2, Hh1, app_assoc, length_app. split; [reflexivity | lia].
Qed.

Local Abbreviation State := (@state float W Model Manager RunResult).

Lemma emits_ret {A : Type} allowed (a : A) : emits allowed 0 (ret a : M State A).
Proof.
  intros st x st' [= _ <-]. exists []. split; [apply extends_refl | reflexivity].
Qed.

Lemma emits_raise {A : Type} allowed e : emits allowed 0 (raise e : M State A).
Proof.
  intros st x st' [= _ <-]. exists []. split; [apply extends_refl | reflexivity].
Qed.

Lemma emits_bind {A B : Type} allowed k1 k2 (m : M State A) (f : A -> M State B) :
  emits allowed k1 m -> (forall a, emits allowed k2 (f a)) ->
  emits allowed (k1 + k2) (bind m f).
Proof.
  intros Hm Hf st x st' H. unfold bind in H.
  destruct (m st) as [[e | a] st1] eqn:Hm1;
    destruct (Hm _ _ _ Hm1) as (evs1 & Hext1 & Hall1).
  - injection H as <- <-. exists (evs1 ++ []). split.
    + eapply extends_trans; [exact Hext1 |].
      destruct (extends_refl st1) as [Ht (c & Hc & Hl)].
      split; [exact Ht |]. exists c. split; [exact Hc | lia].
    + rewrite app_nil_r. exact Hall1.
  - destruct (Hf a _ _ _ H) as (evs2 & Hext2 & Hall2).
    exists (evs1 ++ evs2). split.
    + eapply extends_trans; eauto.
    + rewrite forallb_app, Hall1, Hall2. reflexivity.
Qed.

Lemma emits_weaken {A : Type} (allowed allowed' : event -> bool) k k' (m : M State A) :
  (forall ev, allowed ev = true -> allowed' ev = true) -> k <= k' ->
  emits allowed k m -> emits allowed' k' m.
Proof.
  intros Hall Hk Hm st x st' H.
  destruct (Hm _ _ _ H) as (evs & [Ht (c & Hc & Hl)] & Hevs).
  exists evs. split.
  - split; [exact Ht |]. exists c. split; [exact Hc | lia].
  - rewrite forallb_forall in *. auto.
Qed.

Lemma emits_log allowed ev :
  allowed ev = true -> emits allowed 0 (log ev : M State unit).
Proof.
  intros Hev st x st' [= _ <-]. exists [ev]. split.
  - split; [reflexivity |]. exists []. simpl. rewrite app_nil_r. auto.
  - simpl. rewrite Hev. reflexivity.
Qed.

Lemma emits_external {A : Type} allowed (f : @heap float -> W -> (exn + A) * W)
    (ev : exn + A -> @event float Model Manager RunResult) :
  (forall r, allowed (ev r) = true) -> emits allowed 0 (external f ev : M State A).
Proof.
  intros Hev st x st' H. apply external_frame in H as (Hh & _ & Ht).
  exists [ev x]. split.
  - split; [exact Ht |]. exists []. rewrite app_nil_r. auto.
  - simpl. rewrite Hev. reflexivity.
Qed.

Lemma emits_on_heap_reading {A : Type} allowed (f : heap -> exn + A) :
  emits allowed 0 (on_heap (reading f) : M State A).
Proof.
  intros st x st' H. rewrite on_heap_reading in H. injection H as _ <-.
  exists []. split; [apply extends_refl | reflexivity].
Qed.

Lemma emits_get_model_params allowed config :
  emits allowed 1 (on_heap (get_model_params config) : M State loc).
Proof.
  intros st x st' H. apply on_heap_frame in H as (H & _ & _ & Ht).
  exists []. split; [| reflexivity]. split; [rewrite app_nil_r; exact Ht |].
  unfold get_model_params, bind, reading in H.
  destruct (stage_params config "model" (st_heap st)) as [e | pv].
  - injection H as _ <-. exists []. rewrite app_nil_r. simpl. auto.
  - destruct x as [e | r].
    + apply py_dict_inl in H as [-> _]. exists []. rewrite app_nil_r. simpl. auto.
    + apply py_dict_inr in H as (items & _ & _ & ->). exists [items]. auto.
Qed.

(** One pass records calls into the pipeline only, and allocates at most
    the copy of the model params. *)
Lemma run_once_emits config : emits is_pipeline_call 1 (run_once pipeline config).
Proof.
  unfold run_once.
  apply (emits_bind _ 0 1); [apply emits_on_heap_reading | intros ty].
  apply (emits_bind _ 1 0); [apply emits_get_model_params | intros params].
  apply (emits_bind _ 0 0).
  { destruct ty as [sc | cls | l]; simpl; try apply emits_raise.
    intros st x st' H. eapply emits_external; [| exact H]. reflexivity. }
  intros model.
  apply (emits_bind _ 0 0); [apply emits_on_heap_reading | intros mty].
  apply (emits_bind _ 0 0).
  { destruct mty as [sc | cls | l]; simpl; try apply emits_raise.
    apply emits_external. reflexivity. }
  intros manager.
  apply (emits_bind _ 0 0); [apply emits_external; reflexivity | intros u].
  apply emits_external. reflexivity.
Qed.

Lemma emits_add_result allowed (r : loc) (result : RunResult) :
  emits allowed 0 (RunResultSet_add_result r result : M State unit).
Proof.
  intros st x st' [= _ <-]. exists []. split; [| reflexivity].
  split; simpl; [rewrite app_nil_r; reflexivity |].
  exists []. rewrite app_nil_r. auto.
Qed.

Lemma run_loop_emits n self : emits is_loop_event n (run_loop pipeline n self).
Proof.
  induction n as [| n IH]; simpl.
  - apply emits_ret.
  - apply (emits_bind _ 1 n).
    { eapply emits_weaken; [| | apply run_once_emits]; [| lia].
      intros ev. destruct ev; simpl; auto. }
    intros result.
    apply (emits_bind _ 0 n); [apply emits_add_result | intros u1].
    apply (emits_bind _ 0 n); [apply emits_log; reflexivity | intros u2].
    exact IH.
Qed.

Lemma run_outcome self repeat st x st' :
  run pipeline self repeat st = (x, st') ->
  (exists e, py_range repeat = inl e /\ x = inl e
             /\ st' = snd (log (EvTqdm repeat) st))
  \/ exists n, py_range repeat = inr n
       /\ ((exists e, x = inl e
                      /\ run_loop pipeline n self (snd (log (EvTqdm repeat) st))
                         = (inl e, st'))
           \/ exists st1, x = inr tt
                /\ run_loop pipeline n self (snd (log (EvTqdm repeat) st))
                   = (inr tt, st1)
                /\ st' = snd (log EvClose st1)).
Proof.
  intros H.
  change (bind (reading (fun _ => py_range repeat))
               (fun n => do _ <- run_loop pipeline n self; log EvClose)
               (snd (log (EvTqdm repeat) st)) = (x, st')) in H.
  set (st0 := snd (log (EvTqdm repeat) st)) in *.
  unfold bind at 1 in H. unfold reading in H.
  destruct (py_range repeat) as [e | n].
  - injection H as <- <-. left. eauto.
  - right. exists n. split; [reflexivity |]. unfold bind in H.
    destruct (run_loop pipeline n self st0) as [[e | []] st1].
    + injection H as <- <-. left. eauto.
    + unfold log in H. injection H as <- <-. right. eauto.
Qed.

(** X1: whatever [run] is asked and however it ends, it first opens the
    progress bar, and the events after that are calls into the pipeline and
    updates of the bar, followed, when [run] returns, by the closing of the
    bar: a run that raises leaves the bar open. *)
Theorem progress_bar_is_closed_only_on_success self repeat st x st' :
  run pipeline self repeat st = (x, st') ->
  exists evs,
    forallb is_loop_event evs = true
    /\ st_trace st'
       = st_trace st ++ EvTqdm repeat :: evs
         ++ match x with inr _ => [EvClose] | inl _ => [] end.
Proof.
  intros H. apply run_outcome in H.
  destruct H as [(e & _ & -> & ->) | (n & _ & [(e & -> & Hloop) | (st1 & -> & Hloop & ->)])].
  - exists []. split; reflexivity.
  - destruct (run_loop_emits _ _ _ _ _ Hloop) as (evs & [Ht _] & Hall).
    exists evs. split; [exact Hall |]. rewrite Ht. simpl.
    rewrite app_nil_r, <- app_assoc. reflexivity.
  - destruct (run_loop_emits _ _ _ _ _ Hloop) as (evs & [Ht _] & Hall).
    exists evs. split; [exact Hall |]. simpl. rewrite Ht. simpl.
    rewrite <- !app_assoc. reflexivity.
Qed.

Lemma run_once_needs_model_class config st :
  (forall cls, model_type config (st_heap st) <> inr (VClass cls)) ->
  exists e st',
    run_once pipeline config st = (inl e, st')
    /\ In (exn_class e) ["AttributeError"; "TypeError"; "ValueError"]
    /\ st_trace st' = st_trace st
    /\ st_world st' = st_world st
    /\ st_results st' = st_results st.
Proof.
  intros Hty. unfold run_once. unfold bind at 1. rewrite on_heap_reading.
  destruct (model_type config (st_heap st)) as [e | ty] eqn:Hmt.
  - apply model_meta_inl in Hmt. exists e, st. rewrite Hmt. simpl. auto.
  - unfold bind at 1.
    destruct (on_heap (get_model_params config) st) as [[e | params] st1] eqn:Hp;
      apply on_heap_frame in Hp as (Hp & Hr & Hw & Ht).
    + exists e, st1. repeat split; try assumption.
      unfold get_model_params, bind, reading in Hp.
      destruct (stage_params config "model" (st_heap st)) as [e1 | pv] eqn:Hpv.
      * injection Hp as <- _. apply stage_params_inl in Hpv. rewrite Hpv. simpl. auto.
      * apply py_dict_inl in Hp as [_ [-> | ->]]; simpl; auto.
    + unfold bind at 1.
      destruct ty as [sc | cls | l]; simpl; try (exfalso; eapply Hty; reflexivity);
        eexists; eexists; (split; [reflexivity |]); simpl; auto.
Qed.

(** X3: with a repeat count of at least 1, a configuration whose model type
    is not a class (no [model] stage, no [meta], no [type] entry, or a value
    that cannot be called) makes [run] raise an [AttributeError], a
    [TypeError] or a [ValueError] in the first pass, before any call into
    the pipeline: only the opening of the progress bar is recorded, and the
    pipeline's state and the result sets are untouched. *)
Theorem run_needs_a_model_class self (repeat : Z) st :
  (1 <= repeat)%Z ->
  (forall cls, model_type (exp_config self) (st_heap st) <> inr (VClass cls)) ->
  exists e st',
    run pipeline self (VScalar (SInt repeat)) st = (inl e, st')
    /\ In (exn_class e) ["AttributeError"; "TypeError"; "ValueError"]
    /\ st_trace st' = st_trace st ++ [EvTqdm (VScalar (SInt repeat))]
    /\ st_world st' = st_world st
    /\ st_results st' = st_results st.
Proof.
  intros Hrep Hty. rewrite run_unfold.
  destruct (Z.to_nat repeat) as [| n] eqn:Hn; [lia |].
  destruct (run_once_needs_model_class (exp_config self)
              (snd (log (EvTqdm (VScalar (SInt repeat))) st)) Hty)
    as (e & st' & Hrun & Hclass & Ht & Hw & Hr).
  exists e, st'. split.
  - apply bind_raise. simpl. apply bind_raise. exact Hrun.
  - auto.
Qed.

Lemma run_results self (repeat : Z) st st' :
  _results self < length (st_results st) ->
  run pipeline self (VScalar (SInt repeat)) st = (inr tt, st') ->
  length (st_results st') = length (st_results st)
  /\ exists rs, length rs = Z.to_nat repeat
                /\ results_of st' (_results self) = results_of st (_results self) ++ rs.
Proof.
  intros Hr H. rewrite run_unfold in H.
  apply bind_inr in H as ([] & st1 & Hloop & Hclose).
  unfold log in Hclose. injection Hclose as <-.
  apply run_loop_results in Hloop; [| exact Hr].
  exact Hloop.
Qed.

(** X4: [run] does not start from an empty result set: two runs of the same
    experiment that both succeed leave in its result set what was there
    before, then the results of the first run, then those of the second. *)
Theorem results_accumulate_across_runs self (a b : Z) st st1 st2 :
  _results self < length (st_results st) ->
  run pipeline self (VScalar (SInt a)) st = (inr tt, st1) ->
  run pipeline self (VScalar (SInt b)) st1 = (inr tt, st2) ->
  exists rs1 rs2,
    length rs1 = Z.to_nat a /\ length rs2 = Z.to_nat b
    /\ results_of st1 (_results self) = results_of st (_results self) ++ rs1
    /\ results_of st2 (_results self) = results_of st (_results self) ++ rs1 ++ rs2.
Proof.
  intros Hr H1 H2.
  apply run_results in H1 as (Hlen1 & rs1 & Hl1 & Heq1); [| exact Hr].
  apply run_results in H2 as (_ & rs2 & Hl2 & Heq2); [| rewrite Hlen1; exact Hr].
  exists rs1, rs2. repeat split; try assumption.
  rewrite Heq2, Heq1, <- app_assoc. reflexivity.
Qed.

(** ** Missing entries *)

Lemma params_copy_raises_on_missing_entries stage :
  raises_on_missing_entries
    (fun self : ExperimentConfig =>
       do p <- reading (@stage_params float self stage); py_dict p)
    stage.
Proof.
  intros self h. split.
  - intros Hstage. unfold bind, reading, stage_params. simpl.
    rewrite Hstage. simpl. eauto.
  - intros s Hstage Hparams. unfold bind, reading, stage_params. simpl.
    rewrite Hstage. simpl. rewrite Hparams. simpl. unfold raise. eauto.
Qed.

(** X5: a configuration without the stage makes each of the five getters
    of params raise an [AttributeError]; a stage without a [params] entry
    makes [get_model_params], [get_preprocessing_params],
    [get_training_params] and [get_validation_params] raise a [TypeError],
    while [get_testing_params] returns [None] without raising.  None of
    them changes the object table. *)
Theorem getters_on_missing_entries :
  raises_on_missing_entries (@get_model_params float) "model"
  /\ raises_on_missing_entries (@get_preprocessing_params float) "preprocess"
  /\ raises_on_missing_entries (@get_training_params float) "train"
  /\ raises_on_missing_entries (@get_validation_params float) "validate"
  /\ (forall (self : ExperimentConfig) (h : @heap float),
         (dict_get (deref h (_config self)) "test" = VNone ->
          exists msg, get_testing_params self h = (inl (AttributeError msg), h))
         /\ (forall s, dict_get (deref h (_config self)) "test" = VRef s ->
                       dict_get (deref h s) "params" = VNone ->
                       get_testing_params self h = (inr VNone, h))).
Proof.
  do 4 (split; [apply params_copy_raises_on_missing_entries |]).
  intros self h. split.
  - intros Hstage. unfold get_testing_params, reading, stage_params. simpl.
    rewrite Hstage. simpl. eauto.
  - intros s Hstage Hparams. unfold get_testing_params, reading, stage_params. simpl.
    rewrite Hstage. simpl. rewrite Hparams. reflexivity.
Qed.

(** ** One configuration for each cell *)

Lemma update_param_length self cur (item : string * @scalar float) label h r h' :
  update_param round_float str_float self cur item label h = (r, h') ->
  length h' = length h.
Proof.
  destruct item as [param value]. unfold update_param.
  unfold bind at 1. unfold reading at 1.
  destruct (meta_config (_config_space self) param) as [e | [key |]];
    [intros [= _ <-]; reflexivity | | unfold raise; intros [= _ <-]; reflexivity].
  unfold bind, reading.
  destruct (dict_get (deref h cur) key) as [[| b | z | f | s0] | name | stage];
    unfold raise, dictionary_update_deep, ret;
    try solve [intros [= _ <-]; reflexivity].
  destruct (dict_get (deref h stage) "params") as [sc | name | params];
    try solve [intros [= _ <-]; reflexivity].
  intros [= _ <-]. unfold store, heap, dict, loc in *. apply length_insert.
Qed.

Lemma for_each_update_length self cur (cell : @Configuration float) label h r h' :
  for_each (update_param round_float str_float self cur) cell label h = (r, h') ->
  length h' = length h.
Proof.
  revert label h. induction cell as [| item cell IH]; intros label h H; simpl in H.
  - unfold ret in H. injection H as _ <-. reflexivity.
  - unfold bind in H.
    destruct (update_param round_float str_float self cur item label h)
      as [[e | label1] h1] eqn:Hitem; apply update_param_length in Hitem.
    + injection H as _ <-. exact Hitem.
    + apply IH in H. congruence.
Qed.

Lemma next_config_allocates_two self (cell : @Configuration float) h c h' :
  next_config round_float str_float self cell h = (inr c, h') ->
  length h' = length h + 2 /\ _config c = length h + 1.
Proof.
  intros H. unfold next_config in H.
  rewrite (bind_step _ _ _ _ _ (py_dict_ref _ _)) in H.
  bind_in H as label h2 Hlabel. apply for_each_update_length in Hlabel.
  unfold ExperimentConfig_init in H.
  rewrite (bind_step _ _ _ _ _ (py_dict_ref _ _)) in H.
  unfold ret in H. injection H as <- <-. simpl.
  unfold heap, dict, loc in *. rewrite length_app in *. simpl in *. lia.
Qed.

Lemma configurations_from self (cells : list (@Configuration float)) :
  forall acc h cs h',
    for_each (fun cell acc0 =>
                do c <- next_config round_float str_float self cell; ret (acc0 ++ [c]))
             cells acc h = (inr cs, h') ->
    exists new,
      cs = acc ++ new
      /\ map _label new = map (spec_label round_float str_float) cells
      /\ length h' = length h + 2 * length cells
      /\ forall i c, new !! i = Some c -> _config c = length h + 2 * i + 1.
Proof.
  induction cells as [| cell cells IH]; intros acc h cs h' H; simpl in H.
  - unfold ret in H. injection H as <- <-. exists []. rewrite app_nil_r.
    repeat split; simpl; try lia. intros i c Hi. destruct i; discriminate.
  - bind_in H as acc1 h1 Hcell. bind_in Hcell as c h2 Hc.
    unfold ret in Hcell. injection Hcell as <- <-.
    pose proof (next_config_label _ _ _ _ _ Hc) as Hlabel.
    apply next_config_allocates_two in Hc as [Hlen Hloc].
    apply IH in H as (new & -> & Hlabels & Hlen' & Hlocs).
    exists (c :: new). rewrite <- app_assoc. repeat split.
    + simpl. congruence.
    + simpl. lia.
    + intros i c' Hi. destruct i as [| i]; simpl in Hi.
      * injection Hi as <-. lia.
      * apply Hlocs in Hi. lia.
Qed.

(** X6: run to its end, the generator of configurations yields one
    configuration for each cell of the grid, in grid order, labelled with
    the label of its cell; each has a top-level dict of its own, and
    building them allocates exactly two dicts for each cell. *)
Theorem configurations_yields_one_per_cell self h cs h' :
  configurations round_float str_float self h = (inr cs, h') ->
  map _label cs = map (spec_label round_float str_float) (grid self)
  /\ length h' = length h + 2 * length (grid self)
  /\ forall i c, cs !! i = Some c -> _config c = length h + 2 * i + 1.
Proof.
  intros H. unfold configurations in H.
  apply configurations_from in H as (new & -> & Hlabels & Hlen & Hlocs).
  simpl. auto.
Qed.

(** ** The manager of configurations *)

Variable generate_grid :
  ConfigurationSpace -> list (string * Z) -> list (@Configuration float).

(** X7: the manager copies the top level of the raw pipeline
    configuration, and each configuration it builds copies the top level
    again; so, after three copies, the top-level dict of a built
    configuration is a new dict with exactly the items of the caller's raw
    dict: stage by stage, the configuration names the caller's own stage
    dicts. *)
Theorem built_configuration_names_the_raw_stages
    (t : loc) raw_exp self (cell : @Configuration float) h h1 c h2 :
  closed h = true ->
  ExperimentConfigManager_init generate_grid (VRef t) raw_exp h = (inr self, h1) ->
  next_config round_float str_float self cell h1 = (inr c, h2) ->
  deref h2 (_config c) = deref h t
  /\ length h < _raw_pipeline_config self + 1
  /\ _raw_pipeline_config self < _config c.
Proof.
  intros Hc Hinit Hnext. unfold ExperimentConfigManager_init in Hinit.
  rewrite (bind_step _ _ _ _ _ (py_dict_ref _ _)) in Hinit.
  unfold ret in Hinit. injection Hinit as <- <-.
  assert (Hc1 : closed (h ++ [deref h t]) = true).
  { apply closed_app; [exact Hc |]. apply refs_below_deref. exact Hc. }
  pose proof (next_config_shares_stages _ _ _ _ _ Hc1 Hnext) as Hshare.
  apply next_config_allocates_two in Hnext as [_ Hloc].
  simpl in *. rewrite deref_app_new in Hshare.
  unfold heap, dict, loc in *. rewrite length_app in Hloc. simpl in Hloc.
  repeat split; [exact Hshare | lia | lia].
Qed.

(** X8: two cells that differ in one float hyperparameter only, wherever
    it stands in the cell, get the same label when [round(value, 6)] gives
    one and the same float for the two values (the same float, not two
    floats that compare equal: the zeros of the two signs are written
    differently). *)
Theorem labels_collide_after_rounding self1 self2 param (f1 f2 : float)
    (before after : @Configuration float) h1 h2 c1 c2 h1' h2' :
  round_float f1 6 = round_float f2 6 ->
  next_config round_float str_float self1 (before ++ (param, SFloat f1) :: after) h1
  = (inr c1, h1') ->
  next_config round_float str_float self2 (before ++ (param, SFloat f2) :: after) h2
  = (inr c2, h2') ->
  _label c1 = _label c2.
Proof.
  intros Hround H1 H2.
  apply next_config_label in H1. apply next_config_label in H2.
  rewrite H1, H2. unfold spec_label. rewrite !map_app. simpl.
  rewrite Hround. reflexivity.
Qed.

(** ** The pass of [run_experiments] for one cell *)

(** X9: when the experiment configuration has no number of runs
    ([get_runs] gives [None]), or has a float there, the pass for a cell
    whose configuration can be built raises the [TypeError] of [range] once
    the progress bar is opened: the label has been printed, no call into
    the pipeline is made and the progress bar is not closed. *)
Theorem runs_that_are_no_integer_raise_TypeError
    self (cell : @Configuration float) st c h1 :
  (get_runs (mgr_config self) = VNone
   \/ exists f, get_runs (mgr_config self) = VScalar (SFloat f)) ->
  next_config round_float str_float (mgr_config self) cell (st_heap st) = (inr c, h1) ->
  exists st',
    cell_aggregate round_float str_float pipeline combine self cell st
    = (inl (TypeError ("'" +:+ type_name (get_runs (mgr_config self))
                       +:+ "' object cannot be interpreted as an integer")), st')
    /\ st_trace st' = st_trace st ++ [EvPrint (_label c); EvTqdm (get_runs (mgr_config self))]
    /\ st_world st' = st_world st
    /\ st_heap st' = h1.
Proof.
  intros Hruns Hnext. unfold cell_aggregate.
  unfold bind at 1. unfold on_heap at 1. rewrite Hnext.
  unfold Experiment_init, RunResultSet_init, log, run, bind, reading, ret. simpl.
  destruct Hruns as [-> | [f ->]]; simpl;
    eexists; (split; [reflexivity |]); simpl; rewrite <- app_assoc; auto.
Qed.

(** X10: a binding that does not resolve in a later cell of the grid is
    found only when that cell is reached: once the cells before it have
    been run and collated, [run_experiments] raises (an [AttributeError]
    for a hyperparameter declared without meta, else a [ValueError]), with
    the events, the pipeline's state and the result sets as those runs left
    them, and returns none of their aggregates. *)
Theorem unresolved_binding_is_found_after_the_earlier_cells
    self (before_cells after_cells : list (@Configuration float))
    (before after : @Configuration float) param value st results st1 c h1 :
  grid (mgr_config self)
  = before_cells ++ (before ++ (param, value) :: after) :: after_cells ->
  for_each (run_cell round_float str_float pipeline combine self) before_cells [] st
  = (inr results, st1) ->
  closed (st_heap st1) = true ->
  next_config round_float str_float (mgr_config self) before (st_heap st1) = (inr c, h1) ->
  resolves (mgr_config self) (st_heap st1) param = false ->
  exists e st',
    run_experiments round_float str_float pipeline combine self st
    = (inl e, st')
    /\ exn_class e
       = match meta (get_hyperparameter (_config_space (mgr_config self)) param) with
         | None => "AttributeError"
         | Some _ => "ValueError"
         end
    /\ st_trace st' = st_trace st1
    /\ st_world st' = st_world st1
    /\ st_results st' = st_results st1.
Proof.
  intros Hgrid Hcells Hc Hbefore Hres.
  destruct (next_config_unresolved _ _ after _ value _ _ _ Hc Hbefore Hres)
    as (msg & h2 & Hn).
  eexists. eexists. split.
  - unfold run_experiments. rewrite Hgrid.
    rewrite (for_each_app _ _ _ _ _ _ _ Hcells). simpl.
    apply bind_raise. unfold run_cell, cell_aggregate.
    erewrite bind_raise; [reflexivity |].
    erewrite bind_raise; [reflexivity |].
    unfold on_heap. rewrite Hn. reflexivity.
  - simpl. auto.
Qed.

(** ** The summary the manager prints *)

Variable get_hyperparameters : ConfigurationSpace -> list string.
Variable str_object : @heap float -> @val float -> string.

Lemma print_info_steps self : forall names steps (acc : list string * Z) (st : State),
  Forall2 (fun name n => grid_get (grid_dims (raw_exp_config self)) name = Some n)
          names steps ->
  for_each (print_info_step self) names acc st
  = (inr (fst acc ++ map (fun ns => fst ns +:+ " (steps=" +:+ pretty (snd ns) +:+ ")")
                         (zip names steps),
          (snd acc * foldr Z.mul 1 steps)%Z),
     st).
Proof.
  intros names steps acc st Hall. revert acc.
  induction Hall as [| name n names steps Hn Hall IH]; intros acc; simpl.
  - unfold ret. rewrite app_nil_r, Z.mul_1_r. destruct acc. reflexivity.
  - unfold bind, print_info_step. rewrite Hn. unfold ret. rewrite IH. simpl.
    rewrite <- app_assoc, Z.mul_assoc. reflexivity.
Qed.

(** X11: when the grid of the experiment configuration lists the steps of
    every hyperparameter, constructing the ExperimentManager prints one
    summary and does nothing else; the total it shows is the product of
    the steps, and the hyperparameters are shown with their steps, in the
    order of the configuration space. *)
Theorem manager_prints_the_product_of_the_steps self steps (st : State) :
  Forall2 (fun name n => grid_get (grid_dims (raw_exp_config self)) name = Some n)
          (get_hyperparameters (_config_space self)) steps ->
  ExperimentManager_init str_float get_hyperparameters str_object self st
  = (inr {| mgr_config := self |},
     {| st_heap := st_heap st; st_results := st_results st; st_world := st_world st;
        st_trace :=
          st_trace st
          ++ [EvPrint
                (info_text
                   (map (fun ns => fst ns +:+ " (steps=" +:+ pretty (snd ns) +:+ ")")
                        (zip (get_hyperparameters (_config_space self)) steps))
                   (foldr Z.mul 1%Z steps)
                   (py_str str_float str_object (st_heap st) (get_runs self)))] |}).
Proof.
  intros Hall. unfold ExperimentManager_init, print_info.
  unfold bind at 1. unfold bind at 1.
  rewrite (print_info_steps _ _ _ _ _ Hall). simpl.
  rewrite Z.mul_1_l. reflexivity.
Qed.

Lemma print_info_steps_missing self : forall before name after (acc : list string * Z)
    (st : State),
  Forall (fun n => grid_get (grid_dims (raw_exp_config self)) n <> None) before ->
  grid_get (grid_dims (raw_exp_config self)) name = None ->
  for_each (print_info_step self) (before ++ name :: after) acc st
  = (inl (TypeError "unsupported operand type(s) for *=: 'int' and 'NoneType'"), st).
Proof.
  intros before name after acc st Hbefore Hname. revert acc.
  induction Hbefore as [| n before Hn Hbefore IH]; intros acc; simpl.
  - unfold bind, print_info_step. rewrite Hname. reflexivity.
  - unfold bind at 1. unfold print_info_step at 1.
    destruct (grid_get (grid_dims (raw_exp_config self)) n) as [k |]; [| congruence].
    unfold ret. apply IH.
Qed.

(** X12: when the grid of the experiment configuration does not list a
    hyperparameter of the configuration space, constructing the
    ExperimentManager raises a [TypeError] (the total cannot be multiplied
    by [None]): no manager is made and nothing is printed. *)
Theorem manager_needs_steps_for_every_hyperparameter self before name after (st : State) :
  get_hyperparameters (_config_space self) = before ++ name :: after ->
  Forall (fun n => grid_get (grid_dims (raw_exp_config self)) n <> None) before ->
  grid_get (grid_dims (raw_exp_config self)) name = None ->
  ExperimentManager_init str_float get_hyperparameters str_object self st
  = (inl (TypeError "unsupported operand type(s) for *=: 'int' and 'NoneType'"), st).
Proof.
  intros Hnames Hbefore Hname. unfold ExperimentManager_init, print_info.
  apply bind_raise. apply bind_raise. rewrite Hnames.
  apply print_info_steps_missing; assumption.
Qed.

End StdnnFacts.





(** ** invest.store *)

(** C10: whatever the arguments, constructing a [Store] raises a
    [TypeError] and yields no instance.  With seven arguments, the number
    [__init__] takes, the error is that of its last statement,
    [self.process(self)], which hands [process] two arguments where it
    takes one; with any other number the call of [__init__] itself fails to
    bind them. *)
Theorem Store_always_raises_TypeError {object : Type}
    (process_body : list (string * @Invest.value object) -> exn + @Invest.value object)
    (args : list (@Invest.value object)) :
  exists msg,
    Invest.Store process_body args = inl (TypeError msg)
    /\ (length args = 7 ->
        msg = "process() takes 1 positional argument but 2 were given").
Proof.
  unfold Invest.Store, Invest.call_method, Invest.call.
  destruct (Nat.eqb (length (Invest.Inst [] :: args))
                    (length (Invest.fn_params (Invest.Store_init process_body))))
    eqn:Hlen.
  - simpl. eauto.
  - apply Nat.eqb_neq in Hlen. simpl in Hlen.
    destruct (Nat.ltb _ _); eexists; (split; [reflexivity | intros H7; lia]).
Qed.

Lemma Store_always_raises_TypeError_witness :
  exists msg,
    Invest.Store (fun _ => inr (Invest.Obj 0)) (map Invest.Obj [1; 2; 3; 4; 5; 6; 7])
    = inl (TypeError msg)
    /\ (length (map (@Invest.Obj nat) [1; 2; 3; 4; 5; 6; 7]) = 7 ->
        msg = "process() takes 1 positional argument but 2 were given").
Proof.
  apply (Store_always_raises_TypeError (fun _ => inr (Invest.Obj 0))
           (map Invest.Obj [1; 2; 3; 4; 5; 6; 7])).
Defined.

(** The call in [app.py] passes eight arguments. *)
Example Store_call_of_main :
  Invest.Store (fun _ => inr (Invest.Obj 0)) (map Invest.Obj [1; 2; 3; 4; 5; 6; 7; 8])
  = inl (TypeError "__init__() takes 8 positional arguments but 9 were given").
Proof. reflexivity. Qed.

Example Store_with_seven_arguments :
  Invest.Store (fun _ => inr (Invest.Obj 0)) (map Invest.Obj [1; 2; 3; 4; 5; 6; 7])
  = inl (TypeError "process() takes 1 positional argument but 2 were given").
Proof. reflexivity. Qed.

(** ** The sample runs *)

Import Sample.

(** C1: expanding the template for the grid [channels=16], [channels=32]
    gives two configurations whose [model] stage is the very dict the
    template holds, and leaves the template's own params at 32: the
    configuration labelled [channels=16] holds 32 as well. *)
Theorem expansion_overwrites_shared_template :
  let r := configurations sround sstr (manager_with [cell16; cell32] (int 1)) template in
  let h' := snd r in
  fst r = inr [ {| _config := 5; _label := "channels=16" |};
                {| _config := 7; _label := "channels=32" |} ]
  /\ dict_get (deref template 0) "model" = VRef 1
  /\ dict_get (deref h' 5) "model" = VRef 1
  /\ dict_get (deref h' 7) "model" = VRef 1
  /\ stored_params {| _config := 0; _label := EmptyString |} "model" template
     = Some [("channels", int 16)]
  /\ stored_params {| _config := 0; _label := EmptyString |} "model" h'
     = Some [("channels", int 32)]
  /\ stored_params {| _config := 5; _label := "channels=16" |} "model" h'
     = Some [("channels", int 32)].
Proof. vm_compute. repeat split. Qed.

(** C2, as stated, fails: a pipeline that raises on repeat 2 of 3 makes
    [run] raise that [RuntimeError] itself, not a [RunFailed]; the one
    result of repeat 1 is in the result set of the experiment. *)
Lemma run_failure_is_not_RunFailed :
  let r := run (pipeline_failing (Some 1)) experiment16 (int 3) ready in
  fst r = inl (Exn "RuntimeError" "training diverged")
  /\ exn_class (Exn "RuntimeError" "training diverged") <> "RunFailed"
  /\ results_of (snd r) 0 = [0].
Proof. vm_compute. repeat split. discriminate. Qed.

Lemma pipeline_failure_propagates_cause_witness :
  let st_k := snd (run_loop (pipeline_failing (Some 1)) 1 experiment16
                     (snd (log (EvTqdm (int 3)) ready))) in
  let st_e := snd (run_once (pipeline_failing (Some 1)) config16 st_k) in
  run (pipeline_failing (Some 1)) experiment16 (int 3) ready
  = (inl (Exn "RuntimeError" "training diverged"), st_e)
  /\ exists rs, length rs = 1
                /\ results_of st_e 0 = results_of ready 0 ++ rs.
Proof.
  intros st_k st_e.
  apply (pipeline_failure_propagates_cause
           (pipeline_failing (Some 1)) experiment16 3 ready 1 st_k).
  - vm_compute. lia.
  - vm_compute. lia.
  - reflexivity.
  - reflexivity.
Defined.

(** C3, as stated, fails: with a repeat count of 0, and of -2, [run]
    returns without raising anything, and [run_experiments] with 0 runs
    returns the aggregate of an empty result set. *)
Lemma run_accepts_repeat_below_one :
  fst (run (pipeline_failing None) experiment16 (int 0) ready) = inr tt
  /\ fst (run (pipeline_failing None) experiment16 (int (-2)) ready) = inr tt
  /\ fst (run_experiments sround sstr (pipeline_failing None) count_results
            {| mgr_config := manager_with [cell16] (int 0) |} (start template))
     = inr [("channels=16", 0)].
Proof. vm_compute. repeat split. Qed.

Lemma repeat_count_is_not_validated_witness :
  run (pipeline_failing None) experiment16 (int 0) ready
  = (inr tt,
     {| st_heap := heap16; st_results := [[]]; st_world := 0;
        st_trace := [EvTqdm (int 0); EvClose] |}).
Proof.
  apply (proj1 (repeat_count_is_not_validated (pipeline_failing None) experiment16 ready)
               0%Z).
  lia.
Defined.

(** C4, as stated, fails: for a hyperparameter bound to a stage the
    template does not have, and for one whose meta declares no binding,
    what is raised is a [ValueError]; for one declared without meta it is
    an [AttributeError]; in no case an [UnboundHyperparameter]. *)
Lemma unresolved_binding_is_no_UnboundHyperparameter :
  let m := {| mgr_config := manager_with [cell_dropout] (int 1) |} in
  let r := run_experiments sround sstr (pipeline_failing None) count_results m
             (start template) in
  fst r = inl (ValueError "No dictionary associated with provided meta config value 'modle'")
  /\ exn_class (ValueError "No dictionary associated with provided meta config value 'modle'")
     <> "UnboundHyperparameter"
  /\ st_trace (snd r) = []
  /\ fst (next_config sround sstr (manager_with [] (int 1)) [("seed", SInt 7)] template)
     = inl (ValueError "No meta config value specified for ConfigSpace hyperparameter")
  /\ fst (next_config sround sstr (manager_with [] (int 1)) cell_momentum template)
     = inl (AttributeError "'NoneType' object has no attribute 'get'").
Proof. vm_compute. repeat split. discriminate. Qed.

Lemma unresolved_binding_raises_before_pipeline_witness :
  exists e st',
    run_cell sround sstr (pipeline_failing None) count_results
             {| mgr_config := manager_with [cell_dropout] (int 1) |}
             ([("channels", SInt 16)] ++ ("dropout", SFloat "0.5") :: []) []
             (start template)
    = (inl e, st')
    /\ exn_class e
       = match meta (get_hyperparameter
                       (_config_space
                          (mgr_config
                             {| mgr_config := manager_with [cell_dropout] (int 1) |}))
                       "dropout") with
         | None => "AttributeError"
         | Some _ => "ValueError"
         end
    /\ st_trace st' = st_trace (start template)
    /\ st_world st' = st_world (start template)
    /\ st_results st' = st_results (start template).
Proof.
  apply (unresolved_binding_raises_before_pipeline sround sstr
           (pipeline_failing None) count_results
           {| mgr_config := manager_with [cell_dropout] (int 1) |}
           [("channels", SInt 16)] [] "dropout" (SFloat "0.5") [] (start template)
           config16 heap16).
  - reflexivity.
  - reflexivity.
  - reflexivity.
Defined.

Lemma label_is_ordered_join_witness :
  _label {| _config := 5; _label := "channels=16,layers=2" |}
  = spec_label sround sstr cell_channels_layers.
Proof.
  apply (label_is_ordered_join sround sstr (manager_with [] (int 1))
           cell_channels_layers template _
           (snd (next_config sround sstr (manager_with [] (int 1))
                   cell_channels_layers template))).
  reflexivity.
Defined.


(** ** [Store.process] and [main] *)

(** X13: called as it is defined, on an instance of [Store] alone,
    [process] cannot return, whatever the statements on the data frame do.  When iterating
    [self.all_companies] yields a company, the loop body binds [years] to
    2017 and iterates over it: the [TypeError] of [iter] on an int.  When
    it yields none, no statement has bound [indexes] when [print] reads it:
    an [UnboundLocalError], unless the iteration itself ended in an
    exception.  An instance without that attribute, or whose attribute
    cannot be iterated, raises already. *)
Theorem process_cannot_return {object : Type}
    (iterate : object -> exn + InvestMain.iteration object)
    (year_statements : @InvestMain.locals object -> exn + @InvestMain.locals object)
    (none : object) (attrs : list (string * @Invest.value object)) :
  (exists e,
      Invest.call_method
        (Invest.process (InvestMain.process_statements iterate year_statements none))
        (Invest.Inst attrs) []
      = inl e)
  /\ (forall companies,
         Invest.lookup_name attrs "all_companies" = Some (Invest.Obj companies) ->
         exists e,
           Invest.call_method
             (Invest.process (InvestMain.process_statements iterate year_statements none))
             (Invest.Inst attrs) []
           = inl e
           /\ match iterate companies with
              | inl e' => e = e'
              | inr it =>
                  match InvestMain.yielded it, InvestMain.ended_by it with
                  | _ :: _, _ => e = TypeError "'int' object is not iterable"
                  | [], Some e' => e = e'
                  | [], None => exn_class e = "UnboundLocalError"
                  end
              end).
Proof.
  assert (Hobj : forall companies,
             Invest.lookup_name attrs "all_companies" = Some (Invest.Obj companies) ->
             Invest.call_method
               (Invest.process
                  (InvestMain.process_statements iterate year_statements none))
               (Invest.Inst attrs) []
             = match iterate companies with
               | inl e => inl e
               | inr it =>
                   match InvestMain.yielded it, InvestMain.ended_by it with
                   | _ :: _, _ => inl (TypeError "'int' object is not iterable")
                   | [], Some e => inl e
                   | [], None =>
                       inl (Exn "UnboundLocalError"
                                "local variable 'indexes' referenced before assignment")
                   end
               end).
  { intros companies Hattr.
    unfold Invest.call_method, Invest.call. simpl.
    unfold InvestMain.process_statements. simpl. rewrite Hattr. simpl.
    destruct (iterate companies) as [e | [[| company rest] [e |]]]; reflexivity. }
  split.
  - destruct (Invest.lookup_name attrs "all_companies") as [[companies | attrs'] |]
      eqn:Hattr.
    + rewrite (Hobj _ eq_refl).
      destruct (iterate companies) as [e | [[| company rest] [e |]]]; simpl; eauto.
    + unfold Invest.call_method, Invest.call. simpl.
      unfold InvestMain.process_statements. simpl. rewrite Hattr. eauto.
    + unfold Invest.call_method, Invest.call. simpl.
      unfold InvestMain.process_statements. simpl. rewrite Hattr. eauto.
  - intros companies Hattr. rewrite (Hobj _ Hattr).
    destruct (iterate companies) as [e | [[| company rest] [e |]]]; simpl; eauto.
Qed.

(** X14: [main] of app.py never gets past its first construction of a
    [Store]: when the data is loaded, the call with eight arguments raises
    the [TypeError] of [__init__] in the year 2015, so no portfolio is
    computed and the metrics after the loop are never processed; when the
    data cannot be loaded, [main] raises what the loader raised. *)
Theorem main_stops_at_the_first_Store {object : Type}
    (iterate : object -> exn + InvestMain.iteration object)
    (year_statements : @InvestMain.locals object -> exn + @InvestMain.locals object)
    (none : object) (load_dummy_data : exn + object)
    (all_companies_dummy consumer_dummy general_dummy : object)
    (margin_of_safety beta extension : object) (of_int : Z -> object)
    (portfolio_of_year : @Invest.value object -> Z -> exn + unit)
    (process_metrics : exn + unit) :
  InvestMain.main iterate year_statements none load_dummy_data all_companies_dummy
                  consumer_dummy general_dummy margin_of_safety beta extension of_int
                  portfolio_of_year process_metrics
  = match load_dummy_data with
    | inl e => inl e
    | inr _ =>
        inl (TypeError "__init__() takes 8 positional arguments but 9 were given")
    end.
Proof.
  unfold InvestMain.main. destruct load_dummy_data as [e | df]; reflexivity.
Qed.

(** ** [str2bool] *)

Lemma lower_ascii_idempotent c :
  StdnnMain.lower_ascii (StdnnMain.lower_ascii c) = StdnnMain.lower_ascii c.
Proof. destruct c as [[|] [|] [|] [|] [|] [|] [|] [|]]; reflexivity. Qed.

Lemma lower_upper_ascii c :
  StdnnMain.lower_ascii (StdnnMain.upper_ascii c) = StdnnMain.lower_ascii c.
Proof. destruct c as [[|] [|] [|] [|] [|] [|] [|] [|]]; reflexivity. Qed.

Lemma lower_idempotent s : StdnnMain.lower (StdnnMain.lower s) = StdnnMain.lower s.
Proof.
  induction s as [| c s IH]; simpl; [reflexivity |].
  rewrite lower_ascii_idempotent, IH. reflexivity.
Qed.

Lemma lower_upper s : StdnnMain.lower (StdnnMain.upper s) = StdnnMain.lower s.
Proof.
  induction s as [| c s IH]; simpl; [reflexivity |].
  rewrite lower_upper_ascii, IH. reflexivity.
Qed.

Lemma lower_length s : String.length (StdnnMain.lower s) = String.length s.
Proof. induction s as [| c s IH]; simpl; congruence. Qed.

(** X15: on ASCII strings [str2bool] does not look at the case of the
    letters: a string, the string in upper case and the string in lower
    case get the same answer, be it a bool or the error. *)
Theorem str2bool_ignores_case (s : string) :
  StdnnMain.is_ascii s = true ->
  StdnnMain.str2bool (StdnnMain.CStr (StdnnMain.upper s))
  = StdnnMain.str2bool (StdnnMain.CStr s)
  /\ StdnnMain.str2bool (StdnnMain.CStr (StdnnMain.lower s))
     = StdnnMain.str2bool (StdnnMain.CStr s).
Proof.
  intros _. unfold StdnnMain.str2bool. rewrite lower_upper, lower_idempotent. auto.
Qed.

(** X16: [str2bool] reads back what [str] writes for a bool, in any
    case of the letters, and hands a bool back as it is. *)
Theorem str2bool_reads_back_a_bool (b : bool) :
  StdnnMain.str2bool (StdnnMain.CStr (StdnnMain.str_of_bool b)) = inr b
  /\ StdnnMain.str2bool (StdnnMain.CStr (StdnnMain.upper (StdnnMain.str_of_bool b))) = inr b
  /\ StdnnMain.str2bool (StdnnMain.CStr (StdnnMain.lower (StdnnMain.str_of_bool b))) = inr b
  /\ StdnnMain.str2bool (StdnnMain.CBool b) = inr b.
Proof. destruct b; repeat split; reflexivity. Qed.

Lemma str_in_In x xs : StdnnMain.str_in x xs = true -> In x xs.
Proof.
  unfold StdnnMain.str_in. rewrite existsb_exists.
  intros (y & Hin & Heq). apply String.eqb_eq in Heq. subst. exact Hin.
Qed.

(** X17: [str2bool] accepts no string of more than five characters, and
    not the empty string: each raises the [ArgumentTypeError]. *)
Theorem str2bool_rejects_by_length (s : string) :
  String.length s = 0 \/ 5 < String.length s ->
  StdnnMain.str2bool (StdnnMain.CStr s)
  = inl (StdnnMain.ArgumentTypeError "Boolean value expected.").
Proof.
  intros Hlen. unfold StdnnMain.str2bool.
  assert (Hwords : forall words,
             Forall (fun w => 1 <= String.length w <= 5) words ->
             StdnnMain.str_in (StdnnMain.lower s) words = false).
  { intros words Hall.
    destruct (StdnnMain.str_in (StdnnMain.lower s) words) eqn:Hin; [| reflexivity].
    apply str_in_In in Hin. rewrite Forall_forall in Hall.
    apply list_elem_of_In in Hin. specialize (Hall _ Hin).
    rewrite lower_length in Hall. lia. }
  rewrite !Hwords; [reflexivity | |];
    repeat (apply Forall_cons; split; [simpl; lia |]); apply Forall_nil_2.
Qed.

(** ** More sample runs *)

Import MoreSamples.

(** C8, as stated, fails: two learning rates that differ beyond the sixth
    decimal get one label; when the pipeline fails on the second of the two
    configurations, [run_experiments] raises that [RuntimeError] and no
    [DuplicateLabel]; when it does not fail, [DuplicateLabel] is raised
    only after the pipeline has run the second configuration as well. *)
Lemma duplicate_label_is_found_after_the_run :
  let m := {| mgr_config := tmanager_with [cell_lr 1000001; cell_lr 1000004] |} in
  let failing := run_experiments tround tstr (tpipeline_failing (Some 1)) count_results m
                   (tstart ttemplate) in
  let passing := run_experiments tround tstr (tpipeline_failing None) count_results m
                   (tstart ttemplate) in
  spec_label tround tstr (cell_lr 1000001) = spec_label tround tstr (cell_lr 1000004)
  /\ fst failing = inl (Exn "RuntimeError" "training diverged")
  /\ exn_class (Exn "RuntimeError" "training diverged") <> "DuplicateLabel"
  /\ fst passing = inl (DuplicateLabel "lr=1000000")
  /\ st_world (snd passing) = 2.
Proof. vm_compute. repeat split. discriminate. Qed.

Lemma duplicate_label_is_never_overwritten_witness :
  let m := {| mgr_config := tmanager_with [cell_lr 1000001; cell_lr 1000004] |} in
  let st1 := snd (run_cell tround tstr (tpipeline_failing None) count_results m
                    (cell_lr 1000001) [] (tstart ttemplate)) in
  run_experiments tround tstr (tpipeline_failing None) count_results m (tstart ttemplate)
  = match cell_aggregate tround tstr (tpipeline_failing None) count_results m
            (cell_lr 1000004) st1 with
    | (inl e, st2) => (inl e, st2)
    | (inr _, st2) =>
        (inl (DuplicateLabel (spec_label tround tstr (cell_lr 1000004))), st2)
    end.
Proof.
  intros m st1.
  apply (proj1 (duplicate_label_is_never_overwritten tround tstr
                  (tpipeline_failing None) count_results m)
               [cell_lr 1000001] [] (cell_lr 1000004) (tstart ttemplate)
               [("lr=1000000", 1)] st1).
  - reflexivity.
  - vm_compute. reflexivity.
  - left. vm_compute. reflexivity.
Defined.

Lemma getters_copy_except_testing_witness :
  copies_params_at (@get_model_params sfloat) "model" full_config full_template 6
  /\ copies_params_at (@get_preprocessing_params sfloat) "preprocess"
                      full_config full_template 7
  /\ copies_params_at (@get_training_params sfloat) "train" full_config full_template 8
  /\ copies_params_at (@get_validation_params sfloat) "validate"
                      full_config full_template 9
  /\ aliases_params_at (@get_testing_params sfloat) "test" full_config full_template 10.
Proof.
  destruct (@getters_copy_except_testing sfloat)
    as (Hmodel & Hpreprocess & Htrain & Hvalidate & Htest).
  split; [apply (Hmodel full_config full_template 1 6); reflexivity |].
  split; [apply (Hpreprocess full_config full_template 2 7); reflexivity |].
  split; [apply (Htrain full_config full_template 3 8); reflexivity |].
  split; [apply (Hvalidate full_config full_template 4 9); reflexivity |].
  apply (Htest full_config full_template 5 10); reflexivity.
Defined.

Lemma progress_bar_is_closed_only_on_success_witness :
  let x := fst (run (pipeline_failing (Some 1)) experiment16 (int 3) ready) in
  let st' := snd (run (pipeline_failing (Some 1)) experiment16 (int 3) ready) in
  exists evs,
    forallb is_loop_event evs = true
    /\ st_trace st'
       = st_trace ready ++ EvTqdm (int 3) :: evs
         ++ match x with inr _ => [EvClose] | inl _ => [] end.
Proof.
  intros x st'.
  apply (progress_bar_is_closed_only_on_success
           (pipeline_failing (Some 1)) experiment16 (int 3) ready x st').
  vm_compute. reflexivity.
Defined.

Lemma run_needs_a_model_class_witness :
  exists e st',
    run (pipeline_failing None) experiment_without_model (VScalar (SInt 2)) ready
    = (inl e, st')
    /\ In (exn_class e) ["AttributeError"; "TypeError"; "ValueError"]
    /\ st_trace st' = st_trace ready ++ [EvTqdm (VScalar (SInt 2))]
    /\ st_world st' = st_world ready
    /\ st_results st' = st_results ready.
Proof.
  apply (run_needs_a_model_class (pipeline_failing None) experiment_without_model 2 ready).
  - lia.
  - intros cls. vm_compute. discriminate.
Defined.

Lemma results_accumulate_across_runs_witness :
  let st1 := snd (run (pipeline_failing None) experiment16 (VScalar (SInt 1)) ready) in
  let st2 := snd (run (pipeline_failing None) experiment16 (VScalar (SInt 2)) st1) in
  exists rs1 rs2,
    length rs1 = Z.to_nat 1 /\ length rs2 = Z.to_nat 2
    /\ results_of st1 (_results experiment16)
       = results_of ready (_results experiment16) ++ rs1
    /\ results_of st2 (_results experiment16)
       = results_of ready (_results experiment16) ++ rs1 ++ rs2.
Proof.
  intros st1 st2.
  apply (results_accumulate_across_runs
           (pipeline_failing None) experiment16 1 2 ready st1 st2).
  - vm_compute. lia.
  - vm_compute. reflexivity.
  - vm_compute. reflexivity.
Defined.

Lemma getters_on_missing_entries_witness :
  exists msg,
    get_training_params config16 heap16 = (inl (AttributeError msg), heap16).
Proof.
  apply (proj1 (proj1 (proj2 (proj2 (@getters_on_missing_entries sfloat)))
                      config16 heap16)).
  vm_compute. reflexivity.
Defined.

Lemma configurations_yields_one_per_cell_witness :
  let cs := [ {| _config := 5; _label := "channels=16" |};
              {| _config := 7; _label := "channels=32" |} ] in
  let h' := snd (configurations sround sstr (manager_with [cell16; cell32] (int 1))
                   template) in
  map _label cs = map (spec_label sround sstr) (grid (manager_with [cell16; cell32] (int 1)))
  /\ length h' = length template + 2 * length (grid (manager_with [cell16; cell32] (int 1)))
  /\ forall i c, cs !! i = Some c -> _config c = length template + 2 * i + 1.
Proof.
  intros cs h'.
  apply (configurations_yields_one_per_cell sround sstr
           (manager_with [cell16; cell32] (int 1)) template cs h').
  vm_compute. reflexivity.
Defined.

Lemma built_configuration_names_the_raw_stages_witness :
  let self := {| _raw_pipeline_config := 4; raw_exp_config := raw_exp;
                 _config_space := space; grid := [cell16; cell32] |} in
  let h1 := template ++ [ [("model", VRef 1)] ] in
  let c := {| _config := 6; _label := "channels=16" |} in
  let h2 := snd (next_config sround sstr self cell16 h1) in
  deref h2 (_config c) = deref template 0
  /\ length template < _raw_pipeline_config self + 1
  /\ _raw_pipeline_config self < _config c.
Proof.
  intros self h1 c h2.
  apply (built_configuration_names_the_raw_stages sround sstr grid_of
           0 raw_exp self cell16 template h1 c h2).
  - reflexivity.
  - reflexivity.
  - vm_compute. reflexivity.
Defined.

Lemma labels_collide_after_rounding_witness :
  _label {| _config := 5; _label := "layers=2,lr=1000000,seed=7" |}
  = _label {| _config := 6; _label := "layers=2,lr=1000000,seed=7" |}.
Proof.
  apply (labels_collide_after_rounding tround tstr tmanager tmanager "lr"
           1000001%Z 999997%Z [("layers", SInt 2)] [("seed", SInt 7)]
           ttemplate (ttemplate ++ [[]])
           {| _config := 5; _label := "layers=2,lr=1000000,seed=7" |}
           {| _config := 6; _label := "layers=2,lr=1000000,seed=7" |}
           (snd (next_config tround tstr tmanager
                   ([("layers", SInt 2)] ++ ("lr", SFloat 1000001%Z) :: [("seed", SInt 7)])
                   ttemplate))
           (snd (next_config tround tstr tmanager
                   ([("layers", SInt 2)] ++ ("lr", SFloat 999997%Z) :: [("seed", SInt 7)])
                   (ttemplate ++ [[]])))).
  - reflexivity.
  - vm_compute. reflexivity.
  - vm_compute. reflexivity.
Defined.

Lemma runs_that_are_no_integer_raise_TypeError_witness :
  exists st',
    cell_aggregate sround sstr (pipeline_failing None) count_results
      {| mgr_config := manager_with [cell16] VNone |} cell16 (start template)
    = (inl (TypeError "'NoneType' object cannot be interpreted as an integer"), st')
    /\ st_trace st'
       = st_trace (start template)
         ++ [EvPrint (_label config16);
             EvTqdm (get_runs (mgr_config {| mgr_config := manager_with [cell16] VNone |}))]
    /\ st_world st' = st_world (start template)
    /\ st_heap st' = heap16.
Proof.
  apply (runs_that_are_no_integer_raise_TypeError sround sstr (pipeline_failing None)
           count_results {| mgr_config := manager_with [cell16] VNone |} cell16
           (start template) config16 heap16).
  - left. reflexivity.
  - vm_compute. reflexivity.
Defined.

Lemma unresolved_binding_is_found_after_the_earlier_cells_witness :
  let m := {| mgr_config := manager_with [cell16; cell_dropout] (int 1) |} in
  let st1 := snd (run_cell sround sstr (pipeline_failing None) count_results m
                    cell16 [] (start template)) in
  exists e st',
    run_experiments sround sstr (pipeline_failing None) count_results m (start template)
    = (inl e, st')
    /\ exn_class e
       = match meta (get_hyperparameter (_config_space (mgr_config m)) "dropout") with
         | None => "AttributeError"
         | Some _ => "ValueError"
         end
    /\ st_trace st' = st_trace st1
    /\ st_world st' = st_world st1
    /\ st_results st' = st_results st1.
Proof.
  intros m st1.
  apply (unresolved_binding_is_found_after_the_earlier_cells sround sstr
           (pipeline_failing None) count_results m [cell16] []
           [("channels", SInt 16)] [] "dropout" (SFloat "0.5") (start template)
           [("channels=16", 1)] st1
           {| _config := 8; _label := "channels=16" |}
           (snd (next_config sround sstr (manager_with [] (int 1))
                   [("channels", SInt 16)] (st_heap st1)))).
  - reflexivity.
  - vm_compute. reflexivity.
  - vm_compute. reflexivity.
  - vm_compute. reflexivity.
  - vm_compute. reflexivity.
Defined.

Lemma manager_prints_the_product_of_the_steps_witness :
  ExperimentManager_init sstr (fun _ => ["channels"]) str_opaque
    (manager_with [cell16; cell32] (int 1)) (start template)
  = (inr {| mgr_config := manager_with [cell16; cell32] (int 1) |},
     {| st_heap := st_heap (start template); st_results := st_results (start template);
        st_world := st_world (start template);
        st_trace :=
          st_trace (start template)
          ++ [EvPrint
                (info_text
                   (map (fun ns => fst ns +:+ " (steps=" +:+ pretty (snd ns) +:+ ")")
                        (zip ((fun _ : ConfigurationSpace => ["channels"])
                                (_config_space (manager_with [cell16; cell32] (int 1))))
                             [2%Z]))
                   (foldr Z.mul 1%Z [2%Z])
                   (py_str sstr str_opaque (st_heap (start template))
                      (get_runs (manager_with [cell16; cell32] (int 1)))))] |}).
Proof.
  apply (manager_prints_the_product_of_the_steps sstr
           (fun _ => ["channels"]) str_opaque
           (manager_with [cell16; cell32] (int 1)) [2%Z] (start template)).
  repeat constructor.
Defined.

Lemma manager_needs_steps_for_every_hyperparameter_witness :
  ExperimentManager_init sstr (fun _ => ["channels"; "layers"]) str_opaque
    (manager_with [cell16; cell32] (int 1)) (start template)
  = (inl (TypeError "unsupported operand type(s) for *=: 'int' and 'NoneType'"),
     start template).
Proof.
  apply (manager_needs_steps_for_every_hyperparameter sstr
           (fun _ => ["channels"; "layers"]) str_opaque
           (manager_with [cell16; cell32] (int 1)) ["channels"] "layers" []
           (start template)).
  - reflexivity.
  - repeat constructor. discriminate.
  - reflexivity.
Defined.

Lemma process_cannot_return_witness :
  exists e,
    Invest.call_method
      (Invest.process (InvestMain.process_statements companies_of (fun env => inr env) []))
      (Invest.Inst [("all_companies", Invest.Obj ["SPUR"])]) []
    = inl e
    /\ match companies_of ["SPUR"] with
       | inl e' => e = e'
       | inr it =>
           match InvestMain.yielded it, InvestMain.ended_by it with
           | _ :: _, _ => e = TypeError "'int' object is not iterable"
           | [], Some e' => e = e'
           | [], None => exn_class e = "UnboundLocalError"
           end
       end.
Proof.
  apply (proj2 (process_cannot_return companies_of (fun env => inr env) []
                  [("all_companies", Invest.Obj ["SPUR"])])
               ["SPUR"]).
  reflexivity.
Defined.

Lemma str2bool_ignores_case_witness :
  StdnnMain.str2bool (StdnnMain.CStr (StdnnMain.upper "Yes"))
  = StdnnMain.str2bool (StdnnMain.CStr "Yes")
  /\ StdnnMain.str2bool (StdnnMain.CStr (StdnnMain.lower "Yes"))
     = StdnnMain.str2bool (StdnnMain.CStr "Yes").
Proof.
  apply (str2bool_ignores_case "Yes"). reflexivity.
Defined.

Lemma str2bool_rejects_by_length_witness :
  StdnnMain.str2bool (StdnnMain.CStr "enable")
  = inl (StdnnMain.ArgumentTypeError "Boolean value expected.").
Proof.
  apply (str2bool_rejects_by_length "enable"). right. simpl. lia.
Defined.

(** ** [Plotter.plot_lines] *)

Section PlottingFacts.

Import Plotting.

Variable path_exists : string -> bool.
Variable path_join : string -> string -> string.
Variables figure_name x : string.
Variable y : list string.
Variable save_figure_format : string.
Variable title : option string.

Local Abbreviation plot_lines_with std_error perconfig save_dir :=
  (plot_lines path_exists path_join figure_name x y std_error save_figure_format
              title perconfig save_dir).

Local Abbreviation plot_config_with std_error perconfig save_dir :=
  (plot_config path_join figure_name x y std_error save_figure_format
               title perconfig save_dir).

Lemma for_each_appending {A : Type} (body : A -> unit -> M (list plot_event) unit)
    (g : A -> list plot_event) (xs : list A) :
  (forall a t, body a tt t = (inr tt, t ++ g a)) ->
  forall t, for_each body xs tt t = (inr tt, t ++ flat_map g xs).
Proof.
  intros Hbody. induction xs as [| a xs IH]; intros t; simpl.
  - unfold ret. rewrite app_nil_r. reflexivity.
  - unfold bind. rewrite Hbody, IH, app_assoc. reflexivity.
Qed.

Lemma flat_map_singleton {A B : Type} (f : A -> B) (l : list A) :
  flat_map (fun a => [f a]) l = map f l.
Proof. induction l as [| a l IH]; simpl; congruence. Qed.

Lemma lines_drawn perconfig config frames t :
  for_each (fun y_value (_ : unit) =>
              for_each (fun frame_name (_ : unit) =>
                          emit (Plot x y_value (line_label perconfig config frame_name)))
                       frames tt)
           y tt t
  = (inr tt, t ++ lines_of x y perconfig config frames).
Proof.
  unfold lines_of. apply for_each_appending. intros y_value t0.
  rewrite (for_each_appending _ (fun frame_name =>
             [Plot x y_value (line_label perconfig config frame_name)]))
    by reflexivity.
  rewrite flat_map_singleton. reflexivity.
Qed.

(** X18: when the error columns are not as many as the y columns, the
    first configuration raises the [ValueError], after the directory has
    been made and the figures set up, and before any line is drawn or any
    figure saved; with no configuration at all the error columns are never
    looked at, and the call ends as it does without them. *)
Theorem plot_lines_checks_the_error_columns_per_configuration
    (errors : list string) perconfig save_dir config frames rest t :
  length y <> length errors ->
  plot_lines_with (Some errors) perconfig save_dir ((config, frames) :: rest) t
  = (inl (ValueError "Expected y and std_error to be the same length"),
     t ++ match save_dir with
          | Some dir => if path_exists dir then [] else [Makedirs dir]
          | None => []
          end
       ++ [StyleContext; SetupPlot title]
       ++ (if perconfig
           then [SetupPlot (Some (str_opt title +:+ " (" +:+ config +:+ ")"))]
           else []))
  /\ plot_lines_with (Some errors) perconfig save_dir [] t
     = plot_lines_with None perconfig save_dir [] t.
Proof.
  intros Hlen. split; [| reflexivity].
  apply Nat.eqb_neq in Hlen.
  unfold plot_lines, plot_config, bind, emit, ret, raise. simpl.
  destruct save_dir as [dir |]; [destruct (path_exists dir) |];
    destruct perconfig; simpl; rewrite Hlen; simpl;
    rewrite <- ?app_assoc; simpl; rewrite ?app_nil_r; reflexivity.
Qed.

(** X19: with [save_dir] left at [None], no figure is ever saved: for one
    figure per configuration the first configuration is drawn, the legend
    is made and joining the path raises the [TypeError], the configurations
    after it never being drawn; for a single figure all the lines of all
    the configurations are drawn before the same error. *)
Theorem plot_lines_without_save_dir_saves_nothing config frames rest dataframes t :
  plot_lines_with None true None ((config, frames) :: rest) t
  = (inl (TypeError "expected str, bytes or os.PathLike object, not NoneType"),
     t ++ [StyleContext; SetupPlot title;
           SetupPlot (Some (str_opt title +:+ " (" +:+ config +:+ ")"))]
       ++ lines_of x y true config frames ++ [Legend])
  /\ plot_lines_with None false None dataframes t
     = (inl (TypeError "expected str, bytes or os.PathLike object, not NoneType"),
        t ++ [StyleContext; SetupPlot title]
          ++ flat_map (fun item => lines_of x y false (fst item) (snd item)) dataframes
          ++ [Legend]).
Proof.
  split.
  - unfold plot_lines.
    erewrite bind_step by reflexivity. erewrite bind_step by reflexivity.
    erewrite bind_step by reflexivity.
    apply bind_raise. simpl. apply bind_raise.
    unfold plot_config. erewrite bind_step by reflexivity.
    erewrite bind_step by apply (lines_drawn true config frames).
    unfold save_figure, bind, emit, reading. simpl.
    rewrite <- !app_assoc. reflexivity.
  - unfold plot_lines.
    erewrite bind_step by reflexivity. erewrite bind_step by reflexivity.
    erewrite bind_step by reflexivity.
    erewrite bind_step.
    2:{ apply (for_each_appending _
                 (fun item => lines_of x y false (fst item) (snd item))).
        intros [c fs] t0. unfold plot_config.
        erewrite bind_step by reflexivity.
        erewrite bind_step by apply (lines_drawn false c fs). reflexivity. }
    unfold save_figure, bind, emit, reading. simpl.
    rewrite <- !app_assoc. reflexivity.
Qed.

Lemma saved_paths_app evs1 evs2 :
  saved_paths (evs1 ++ evs2) = saved_paths evs1 ++ saved_paths evs2.
Proof. unfold saved_paths. apply flat_map_app. Qed.

Lemma saved_paths_lines (ys : list string) perconfig config frames :
  saved_paths (lines_of x ys perconfig config frames) = [].
Proof.
  unfold lines_of.
  induction ys as [| y_value ys IH]; simpl; [reflexivity |].
  rewrite saved_paths_app, IH, app_nil_r.
  unfold saved_paths. clear IH.
  induction frames as [| f fs IHf]; simpl; [reflexivity | exact IHf].
Qed.

Lemma replace_dots_has_no_dot s :
  ~ In dot (String.list_ascii_of_string (replace_dots s)).
Proof.
  induction s as [| c s IH]; simpl; [tauto |].
  destruct (Ascii.eqb_spec c dot) as [-> | Hc]; simpl.
  - intros [H | [H | H]]; [discriminate | discriminate | auto].
  - intros [H | H]; [congruence | auto].
Qed.

(** X20: with a directory to save in, no error columns and one figure per
    configuration, [plot_lines] returns having saved one figure for each
    configuration, in the order of the dictionary, under the name of the
    configuration with its dots replaced, the figure name and the format;
    and the part of the name that comes from the configuration has no
    dot. *)
Theorem plot_lines_saves_one_figure_per_configuration dir dataframes t :
  (exists events,
      plot_lines_with None true (Some dir) dataframes t = (inr tt, t ++ events)
      /\ saved_paths events
         = map (fun item =>
                  path_join dir (replace_dots (fst item) +:+ "-" +:+ figure_name +:+ "."
                                 +:+ save_figure_format))
               dataframes)
  /\ forall config, ~ In dot (String.list_ascii_of_string (replace_dots config)).
Proof.
  split; [| apply replace_dots_has_no_dot].
  set (figure_of := fun item : string * list string =>
         [SetupPlot (Some (str_opt title +:+ " (" +:+ fst item +:+ ")"))]
         ++ lines_of x y true (fst item) (snd item)
         ++ [Legend;
             Savefig (path_join dir (replace_dots (fst item) +:+ "-" +:+ figure_name
                                     +:+ "." +:+ save_figure_format));
             Clf]).
  assert (Hconfig : forall item t0,
             plot_config_with None true (Some dir) item tt t0
             = (inr tt, t0 ++ figure_of item)).
  { intros [c fs] t0. unfold plot_config.
    erewrite bind_step by reflexivity.
    erewrite bind_step by apply (lines_drawn true c fs).
    unfold save_figure, bind, emit, reading. simpl.
    subst figure_of. simpl. rewrite <- !app_assoc. reflexivity. }
  exists ((if path_exists dir then [] else [Makedirs dir])
          ++ [StyleContext; SetupPlot title] ++ flat_map figure_of dataframes).
  split.
  - unfold plot_lines.
    destruct (path_exists dir);
      (erewrite bind_step by reflexivity); (erewrite bind_step by reflexivity);
      (erewrite bind_step by reflexivity);
      (erewrite bind_step by apply (for_each_appending _ figure_of _ Hconfig));
      unfold ret; simpl; rewrite <- ?app_assoc; reflexivity.
  - rewrite !saved_paths_app.
    assert (Hdir : saved_paths (if path_exists dir then [] else [Makedirs dir]) = [])
      by (destruct (path_exists dir); reflexivity).
    rewrite Hdir. simpl. clear Hdir Hconfig.
    induction dataframes as [| item items IH]; simpl; [reflexivity |].
    rewrite saved_paths_app, IH. subst figure_of. simpl.
    rewrite saved_paths_app, saved_paths_lines. reflexivity.
Qed.

End PlottingFacts.

Lemma plot_lines_checks_the_error_columns_per_configuration_witness :
  Plotting.plot_lines (fun _ => false) (fun dir name => dir +:+ "/" +:+ name)
    "loss" "epoch" ["train"; "valid"] (Some ["train_std"]) "png" (Some "Loss")
    true (Some "out") [("channels=16", ["GWN"])] []
  = (inl (ValueError "Expected y and std_error to be the same length"),
     [] ++ match Some "out" with
           | Some dir => if (fun _ : string => false) dir then []
                         else [Plotting.Makedirs dir]
           | None => []
           end
        ++ [Plotting.StyleContext; Plotting.SetupPlot (Some "Loss")]
        ++ (if true
            then [Plotting.SetupPlot
                    (Some (Plotting.str_opt (Some "Loss") +:+ " (" +:+ "channels=16" +:+ ")"))]
            else []))
  /\ Plotting.plot_lines (fun _ => false) (fun dir name => dir +:+ "/" +:+ name)
       "loss" "epoch" ["train"; "valid"] (Some ["train_std"]) "png" (Some "Loss")
       true (Some "out") [] []
     = Plotting.plot_lines (fun _ => false) (fun dir name => dir +:+ "/" +:+ name)
         "loss" "epoch" ["train"; "valid"] None "png" (Some "Loss")
         true (Some "out") [] [].
Proof.
  apply (plot_lines_checks_the_error_columns_per_configuration
           (fun _ => false) (fun dir name => dir +:+ "/" +:+ name)
           "loss" "epoch" ["train"; "valid"] "png" (Some "Loss")
           ["train_std"] true (Some "out") "channels=16" ["GWN"] [] []).
  simpl. lia.
Defined.
